(** * smart_weather.py: the multi-city weather comparison dashboard

    A shallow embedding of [src/smart_weather.py].  The script reads three
    SQLite tables through pandas, lets the user pick two cities and renders
    four tabs through Streamlit.

    Modelling choices, all local to this file:
    - a pandas DataFrame is the list of its rows, a row is a record with the
      columns of the SQL query that produced it;
    - numeric cells are exact rationals ([Q]); a value that pandas would
      report as NaN is [None] in [option Q];
    - timestamps ([created_at], [datetime], [date]) are integers, the
      nanosecond count behind a [datetime64] cell;
    - every Streamlit call that shows data or a message appends an [event] to
      a trace; purely decorative calls (titles, headers, separators, column
      layout) are not recorded;
    - a Python exception that leaves a function is the [inl] outcome of the
      monad [M]; [st.cache_data] memoisation is transparent to the values
      computed and is left out. *)

From Stdlib Require Import ZArith QArith String Ascii List Lia Sorting.Sorted.
From Stdlib Require Import Structures.OrderedTypeEx.
From stdpp Require Import base decidable option list sorting strings gmap.

Local Open Scope string_scope.
Local Open Scope list_scope.

(** ** Rows of the three tables *)

Module Current.
(** [SELECT city, datetime, temp_c, humidity, wind_kph, wind_dir,
    precip_mm, aqi, condition, created_at FROM current] *)
Record row : Type := mk {
  city : string;
  datetime : string;
  temp_c : Q;
  humidity : Q;
  wind_kph : Q;
  wind_dir : string;
  precip_mm : Q;
  aqi : Q;
  condition : string;
  created_at : Z
}.
End Current.

Module Forecast.
(** [SELECT city, datetime, temp_c, humidity, wind_kph, wind_dir,
    precip_mm, aqi, condition FROM forecast] *)
Record row : Type := mk {
  city : string;
  datetime : Z;
  temp_c : Q;
  humidity : Q;
  wind_kph : Q;
  wind_dir : string;
  precip_mm : Q;
  aqi : Q;
  condition : string
}.
End Forecast.

Module Meteostat.
(** [SELECT date, city, temperature, precipitation, snow, wind_dir,
    wind_speed, humidity, cloud_cover, sunshine_duration FROM meteostat] *)
Record row : Type := mk {
  date : Z;
  city : string;
  temperature : Q;
  precipitation : Q;
  snow : Q;
  wind_dir : Q;
  wind_speed : Q;
  humidity : Q;
  cloud_cover : Q;
  sunshine_duration : Q
}.
End Meteostat.

(** ** What a read of a data source yields

    Everything between [sqlite3.connect] and the end of a [try] block either
    produces the rows of the query or raises; [Failure e] carries the text of
    the exception. *)

Inductive read (A : Type) : Type :=
| Rows (rows : list A)
| Failure (e : string).
Arguments Rows {A} rows.
Arguments Failure {A} e.

Inductive database : Type := DB_METEOSTAT | DB_FORECAST | DB_CURRENT.

(** ** The trace of Streamlit calls *)

Inductive level : Type := Success | Info | Warning | Error.

Inductive message : Type :=
| CitiesNotLoaded (db : database) (e : string)
    (* "Could not load cities from <db> database: {e}" *)
| LoadFailed (db : database) (e : string)
    (* "Error loading current weather / forecast data / historical data: {e}" *)
| NoCitiesFound          (* "No cities found in databases. ..." *)
| FoundCities (n : nat)  (* "Found {n} cities in database" *)
| NeedTwoCities          (* "Need at least 2 cities in database for comparison" *)
| NoCurrentDataFor (city : string)  (* "No current data for {city}" *)
| NoCurrentData          (* "No current weather data available" *)
| InsufficientForecast   (* "Insufficient forecast data for comparison" *)
| NoForecast             (* "No forecast data available" *)
| InsufficientHistorical (* "Insufficient historical data for comparison" *)
| NoHistorical.          (* "No historical data available" *)

Inductive chart : Type :=
| TemperatureForecast | PrecipitationForecast | HumidityForecast
| TemperatureTrend | PrecipitationComparison.

Inductive metric : Type := AvgTemp | TotalPrecip | AvgHumidity | AvgWind.

(** One dictionary appended to [summary_data] in the Detailed Metrics tab. *)
Record summary : Type := mkSummary {
  City : string;
  Avg_Temperature : option Q;
  Max_Temperature : option Q;
  Min_Temperature : option Q;
  Total_Precipitation : Q;
  Avg_Humidity : option Q;
  Avg_Wind_Speed : option Q
}.

Inductive event : Type :=
| Notice (lvl : level) (m : message)
    (* st.success / st.info / st.warning / st.error *)
| WeatherCard (city : string) (data : Current.row)
    (* display_current_weather_card *)
| Radar (name1 : string) (r1 : list Q) (name2 : string) (r2 : list Q)
    (* the two Scatterpolar traces of create_comparison_chart *)
| Plot (c : chart) (name1 : string) (x1 : list Z) (y1 : list Q)
                   (name2 : string) (x2 : list Z) (y2 : list Q)
    (* a figure with one trace per city *)
| Metric (m : metric) (city : string) (value : option Q) (delta : option (option Q))
    (* st.metric(label, value[, delta]) *)
| CurrentTable (rows : list Current.row)
    (* st.dataframe(city_current) *)
| SummaryTable (rows : list summary).
    (* st.dataframe(pd.DataFrame(summary_data)) *)

(** ** Exceptions and the script monad *)

Inductive exn : Type := IndexError.

Definition M (A : Type) : Type := (list event * (exn + A))%type.

#[global] Instance M_ret : MRet M := λ A a, ([], inr a).

#[global] Instance M_bind : MBind M := λ A B f m,
  match m with
  | (t, inl e) => (t, inl e)
  | (t, inr a) => let '(t', r) := f a in (t ++ t', r)
  end.

Definition emit (e : event) : M unit := ([e], inr tt).

Definition raise {A} (e : exn) : M A := ([], inl e).

Definition trace {A} (m : M A) : list event := fst m.
Definition outcome {A} (m : M A) : exn + A := snd m.

(** ** pandas and Python primitives *)

(** [df.empty], and [not xs] on a Python list *)
Definition is_empty {A} (df : list A) : bool :=
  match df with [] => true | _ :: _ => false end.

(** [df.iloc[0]]: the first row, [IndexError] on a frame without rows. *)
Definition iloc0 {A} (df : list A) : M A :=
  match df with
  | [] => raise IndexError
  | r :: _ => mret r
  end.

Module Series.
(** [Series.sum()]: 0 on an empty column. *)
Definition sum (xs : list Q) : Q := foldr Qplus 0%Q xs.

(** [Series.mean()]: NaN on an empty column. *)
Definition mean (xs : list Q) : option Q :=
  match xs with
  | [] => None
  | _ :: _ => Some (sum xs / inject_Z (Z.of_nat (length xs)))%Q
  end.

Definition max2 (a b : Q) : Q := if Qle_bool a b then b else a.
Definition min2 (a b : Q) : Q := if Qle_bool a b then a else b.

(** [Series.max()] and [Series.min()]: NaN on an empty column. *)
Definition max (xs : list Q) : option Q :=
  match xs with
  | [] => None
  | x :: xs' => Some (foldl max2 x xs')
  end.

Definition min (xs : list Q) : option Q :=
  match xs with
  | [] => None
  | x :: xs' => Some (foldl min2 x xs')
  end.

(** [a - b] on two floats either of which may be NaN. *)
Definition sub (a b : option Q) : option Q :=
  match a, b with
  | Some x, Some y => Some (x - y)%Q
  | _, _ => None
  end.
End Series.

(** The order of Python's [sorted] on [str]: code point order, which on the
    UTF-8 bytes of a Rocq [string] is the byte-wise lexicographic order. *)
Definition str_le (s1 s2 : string) : Prop := String.leb s1 s2 = true.

#[global] Instance str_le_dec s1 s2 : Decision (str_le s1 s2).
Proof. unfold str_le. apply _. Defined.

(** [sorted(list(cities))] *)
Definition sorted (cities : gset string) : list string :=
  merge_sort str_le (elements cities).

(** ** City registry *)

Definition fallback : list string := ["Nairobi"; "Sydney"; "New York"; "London"].

(** One [try: ... cities.update(df['city'].tolist()) except ...: st.warning] block. *)
Definition update_cities (db : database) (q : read string) (cities : gset string)
  : M (gset string) :=
  match q with
  | Rows col => mret (cities ∪ list_to_set col)
  | Failure e => emit (Notice Warning (CitiesNotLoaded db e)) ;; mret cities
  end.

Definition get_available_cities (q_current q_forecast q_meteostat : read string)
  : M (list string) :=
  cities ← update_cities DB_CURRENT q_current ∅;
  cities ← update_cities DB_FORECAST q_forecast cities;
  cities ← update_cities DB_METEOSTAT q_meteostat cities;
  mret (if decide (cities = ∅) then fallback else sorted cities).

(** ** Data store adapter and the script, over an arbitrary [sort_values]

    [DataFrame.sort_values] defaults to [kind='quicksort'], which promises no
    order among rows with equal keys.  The development is therefore carried
    out for every function that returns its argument reordered by ascending
    [created_at]. *)

Definition by_created_at (r1 r2 : Current.row) : Prop :=
  (Current.created_at r1 ≤ Current.created_at r2)%Z.

#[global] Instance by_created_at_dec r1 r2 : Decision (by_created_at r1 r2).
Proof. unfold by_created_at. apply _. Defined.

(** [df.groupby('city').tail(1)]: a row is kept when no later row of the
    frame belongs to the same city; kept rows stay in frame order. *)
Fixpoint groupby_city_tail1 (df : list Current.row) : list Current.row :=
  match df with
  | [] => []
  | r :: rest =>
      if decide (Current.city r ∈ Current.city <$> rest)
      then groupby_city_tail1 rest
      else r :: groupby_city_tail1 rest
  end.

(** [st.sidebar.selectbox(label, options, index=0)]: the option the user
    points at, option 0 until they do.  On an empty list Streamlit returns
    [None]; [main] never calls it there and the empty string stands for it. *)
Definition selectbox (options : list string) (choice : nat) : string :=
  default (default "" (head options)) (options !! choice).

(** The five radial values of one city in [create_comparison_chart]. *)
Definition radar_values (data : Current.row) : list Q :=
  [ (Current.temp_c data * 2)%Q;
    Current.humidity data;
    (Current.wind_kph data * 2)%Q;
    (Current.precip_mm data * 10)%Q;
    Current.aqi data ].

Definition display_current_weather_card (city : string) (data : Current.row) : M unit :=
  emit (WeatherCard city data).

Definition create_comparison_chart (city1 city2 : string) (current_df : list Current.row)
  : M unit :=
  city1_data ← iloc0 (filter (λ r, Current.city r = city1) current_df);
  city2_data ← iloc0 (filter (λ r, Current.city r = city2) current_df);
  emit (Radar city1 (radar_values city1_data) city2 (radar_values city2_data)).

(** What the script is run against: the outcome of each of the six queries
    and the positions the user selects in the two select boxes. *)
Record session : Type := mkSession {
  current_cities : read string;
  forecast_cities : read string;
  meteostat_cities : read string;
  current_table : read Current.row;
  forecast_table : read Forecast.row;
  meteostat_table : read Meteostat.row;
  choice1 : nat;
  choice2 : nat
}.

Section Dashboard.

Variable sort_values : list Current.row → list Current.row.

Definition load_current_weather (q : read Current.row) : M (list Current.row) :=
  match q with
  | Rows df => mret (groupby_city_tail1 (sort_values df))
  | Failure e => emit (Notice Error (LoadFailed DB_CURRENT e)) ;; mret []
  end.

Definition load_forecast_data (q : read Forecast.row) : M (list Forecast.row) :=
  match q with
  | Rows df => mret df
  | Failure e => emit (Notice Error (LoadFailed DB_FORECAST e)) ;; mret []
  end.

Definition load_meteostat_data (q : read Meteostat.row) : M (list Meteostat.row) :=
  match q with
  | Rows df => mret df
  | Failure e => emit (Notice Error (LoadFailed DB_METEOSTAT e)) ;; mret []
  end.

(** *** Tab 1: current weather *)

Definition current_column (city : string) (current_df : list Current.row) : M unit :=
  let city_data := filter (λ r, Current.city r = city) current_df in
  if negb (is_empty city_data)
  then data ← iloc0 city_data; display_current_weather_card city data
  else emit (Notice Warning (NoCurrentDataFor city)).

Definition tab1 (city1 city2 : string) (current_df : list Current.row) : M unit :=
  if negb (is_empty current_df)
  then current_column city1 current_df ;;
       current_column city2 current_df ;;
       create_comparison_chart city1 city2 current_df
  else emit (Notice Warning NoCurrentData).

(** *** Tab 2: forecast comparison *)

Definition forecast_plot (c : chart) (y : Forecast.row → Q)
    (city1 city2 : string) (forecast_city1 forecast_city2 : list Forecast.row) : M unit :=
  emit (Plot c city1 (Forecast.datetime <$> forecast_city1) (y <$> forecast_city1)
               city2 (Forecast.datetime <$> forecast_city2) (y <$> forecast_city2)).

Definition tab2 (city1 city2 : string) (forecast_df : list Forecast.row) : M unit :=
  if negb (is_empty forecast_df)
  then
    let forecast_city1 := filter (λ r, Forecast.city r = city1) forecast_df in
    let forecast_city2 := filter (λ r, Forecast.city r = city2) forecast_df in
    if negb (is_empty forecast_city1) && negb (is_empty forecast_city2)
    then forecast_plot TemperatureForecast Forecast.temp_c
           city1 city2 forecast_city1 forecast_city2 ;;
         forecast_plot PrecipitationForecast Forecast.precip_mm
           city1 city2 forecast_city1 forecast_city2 ;;
         forecast_plot HumidityForecast Forecast.humidity
           city1 city2 forecast_city1 forecast_city2
    else emit (Notice Warning InsufficientForecast)
  else emit (Notice Warning NoForecast).

(** *** Tab 3: historical analysis *)

(** One column of [st.metric] pairs: city 1 plain, city 2 with its delta. *)
Definition metric_pair (m : metric) (city1 city2 : string) (v1 v2 : option Q) : M unit :=
  emit (Metric m city1 v1 None) ;;
  emit (Metric m city2 v2 (Some (Series.sub v2 v1))).

Definition historical_plot (c : chart) (y : Meteostat.row → Q)
    (city1 city2 : string) (hist_city1 hist_city2 : list Meteostat.row) : M unit :=
  emit (Plot c city1 (Meteostat.date <$> hist_city1) (y <$> hist_city1)
               city2 (Meteostat.date <$> hist_city2) (y <$> hist_city2)).

Definition tab3 (city1 city2 : string) (historical_df : list Meteostat.row) : M unit :=
  if negb (is_empty historical_df)
  then
    let hist_city1 := filter (λ r, Meteostat.city r = city1) historical_df in
    let hist_city2 := filter (λ r, Meteostat.city r = city2) historical_df in
    if negb (is_empty hist_city1) && negb (is_empty hist_city2)
    then
      let avg_temp1 := Series.mean (Meteostat.temperature <$> hist_city1) in
      let avg_temp2 := Series.mean (Meteostat.temperature <$> hist_city2) in
      metric_pair AvgTemp city1 city2 avg_temp1 avg_temp2 ;;
      let avg_precip1 := Series.sum (Meteostat.precipitation <$> hist_city1) in
      let avg_precip2 := Series.sum (Meteostat.precipitation <$> hist_city2) in
      metric_pair TotalPrecip city1 city2 (Some avg_precip1) (Some avg_precip2) ;;
      let avg_humidity1 := Series.mean (Meteostat.humidity <$> hist_city1) in
      let avg_humidity2 := Series.mean (Meteostat.humidity <$> hist_city2) in
      metric_pair AvgHumidity city1 city2 avg_humidity1 avg_humidity2 ;;
      let avg_wind1 := Series.mean (Meteostat.wind_speed <$> hist_city1) in
      let avg_wind2 := Series.mean (Meteostat.wind_speed <$> hist_city2) in
      metric_pair AvgWind city1 city2 avg_wind1 avg_wind2 ;;
      historical_plot TemperatureTrend Meteostat.temperature
        city1 city2 hist_city1 hist_city2 ;;
      historical_plot PrecipitationComparison Meteostat.precipitation
        city1 city2 hist_city1 hist_city2
    else emit (Notice Warning InsufficientHistorical)
  else emit (Notice Warning NoHistorical).

(** *** Tab 4: detailed metrics *)

Definition current_table_column (city : string) (current_df : list Current.row) : M unit :=
  if negb (is_empty current_df)
  then
    let city_current := filter (λ r, Current.city r = city) current_df in
    if negb (is_empty city_current) then emit (CurrentTable city_current) else mret tt
  else mret tt.

(** The dictionary built for one city from its historical rows. *)
Definition summary_row (city : string) (city_hist : list Meteostat.row) : summary :=
  {| City := city;
     Avg_Temperature := Series.mean (Meteostat.temperature <$> city_hist);
     Max_Temperature := Series.max (Meteostat.temperature <$> city_hist);
     Min_Temperature := Series.min (Meteostat.temperature <$> city_hist);
     Total_Precipitation := Series.sum (Meteostat.precipitation <$> city_hist);
     Avg_Humidity := Series.mean (Meteostat.humidity <$> city_hist);
     Avg_Wind_Speed := Series.mean (Meteostat.wind_speed <$> city_hist) |}.

(** The [for city in [city1, city2]] loop, as a fold over the cities. *)
Fixpoint summary_data (cities : list string) (historical_df : list Meteostat.row)
  : list summary :=
  match cities with
  | [] => []
  | city :: cities' =>
      let city_hist := filter (λ r, Meteostat.city r = city) historical_df in
      if negb (is_empty city_hist)
      then summary_row city city_hist :: summary_data cities' historical_df
      else summary_data cities' historical_df
  end.

Definition historical_summary (city1 city2 : string) (historical_df : list Meteostat.row)
  : M unit :=
  if negb (is_empty historical_df)
  then
    let rows := summary_data [city1; city2] historical_df in
    if negb (is_empty rows) then emit (SummaryTable rows) else mret tt
  else mret tt.

Definition tab4 (city1 city2 : string)
    (current_df : list Current.row) (historical_df : list Meteostat.row) : M unit :=
  current_table_column city1 current_df ;;
  current_table_column city2 current_df ;;
  historical_summary city1 city2 historical_df.

(** *** The script *)

Definition available_cities_for_city2 (CITIES : list string) (city1 : string)
  : list string :=
  filter (λ city, city ≠ city1) CITIES.

Definition main (s : session) : M unit :=
  CITIES ← get_available_cities (current_cities s) (forecast_cities s)
                                (meteostat_cities s);
  if is_empty CITIES
  then emit (Notice Error NoCitiesFound)
  else
    emit (Notice Success (FoundCities (length CITIES))) ;;
    current_df ← load_current_weather (current_table s);
    forecast_df ← load_forecast_data (forecast_table s);
    historical_df ← load_meteostat_data (meteostat_table s);
    let city1 := selectbox CITIES (choice1 s) in
    let candidates := available_cities_for_city2 CITIES city1 in
    if is_empty candidates
    then emit (Notice Error NeedTwoCities)
    else
      let city2 := selectbox candidates (choice2 s) in
      tab1 city1 city2 current_df ;;
      tab2 city1 city2 forecast_df ;;
      tab3 city1 city2 historical_df ;;
      tab4 city1 city2 current_df historical_df.

End Dashboard.

(** A concrete [sort_values], used to run the script on sample data. *)
Definition sort_by_created_at : list Current.row → list Current.row :=
  merge_sort by_created_at.

Definition reading (city : string) (temp hum wind precip aqi : Q) (at_ : Z) : Current.row :=
  Current.mk city "2025-01-01 00:00" temp hum wind "N" precip aqi "Clear" at_.

Definition day (city : string) (date : Z) (temp precip : Q) : Meteostat.row :=
  Meteostat.mk date city temp precip 0 0 10 50 0 0.

(** Nairobi has a current row; Sydney is known from the forecast source only. *)
Definition sample : session :=
  {| current_cities := Rows ["Nairobi"];
     forecast_cities := Rows ["Sydney"];
     meteostat_cities := Failure "no such table: meteostat";
     current_table := Rows [reading "Nairobi" 20 50 10 2 50 1];
     forecast_table := Rows [];
     meteostat_table := Failure "no such table: meteostat";
     choice1 := 0; choice2 := 0 |}.

Definition is_notice (e : event) : Prop :=
  match e with Notice _ _ => True | _ => False end.

(** What a source contributes to the registry according to the
    specification: its distinct city values, nothing when its read failed. *)
Definition contributes (q : read string) : gset string :=
  match q with
  | Rows col => list_to_set col
  | Failure _ => ∅
  end.

(** The arithmetic notions the specification speaks of. *)
Definition arithmetic_mean (m : Q) (xs : list Q) : Prop :=
  (m * inject_Z (Z.of_nat (length xs)) == Series.sum xs)%Q.

Definition maximum (m : Q) (xs : list Q) : Prop :=
  m ∈ xs ∧ ∀ y, y ∈ xs → (y <= m)%Q.

Definition minimum (m : Q) (xs : list Q) : Prop :=
  m ∈ xs ∧ ∀ y, y ∈ xs → (m <= y)%Q.

(** ** More sample data *)

(** Only Nairobi in the sources, with one current row and nothing else. *)
Definition nairobi_only : session :=
  {| current_cities := Rows ["Nairobi"];
     forecast_cities := Rows [];
     meteostat_cities := Rows [];
     current_table := Rows [reading "Nairobi" 20 50 10 2 50 1];
     forecast_table := Rows [];
     meteostat_table := Rows [];
     choice1 := 0; choice2 := 0 |}.

(** Three readings, two of them for Nairobi with the same [created_at]. *)
Definition tied_readings : list Current.row :=
  [ reading "Nairobi" 21 50 10 0 40 7;
    reading "Sydney" 18 60 12 1 30 7;
    reading "Nairobi" 19 55 11 0 42 5;
    reading "Nairobi" 23 45 9 0 38 7 ].

(** Temperatures 10, 20, 30 for Nairobi and 15, 25, 35 for Sydney. *)
Definition two_city_history : list Meteostat.row :=
  [ day "Nairobi" 1 10 0; day "Sydney" 1 15 2;
    day "Nairobi" 2 20 1; day "Sydney" 2 25 0;
    day "Nairobi" 3 30 3; day "Sydney" 3 35 4 ].

(** Both cities have current and historical rows; only Nairobi has
    forecast rows. *)
Definition hour (city : string) (datetime : Z) (temp hum precip : Q) : Forecast.row :=
  Forecast.mk city datetime temp hum 10 "N" precip 40 "Clear".

Definition nairobi_forecast : list Forecast.row :=
  [ hour "Nairobi" 1 21 50 0; hour "Nairobi" 2 22 48 1 ].

Definition two_cities : session :=
  {| current_cities := Rows ["Sydney"; "Nairobi"];
     forecast_cities := Rows ["Nairobi"];
     meteostat_cities := Rows ["Nairobi"; "Sydney"];
     current_table := Rows tied_readings;
     forecast_table := Rows nairobi_forecast;
     meteostat_table := Rows two_city_history;
     choice1 := 0; choice2 := 0 |}.

(** ** Notions used by the further properties *)


(** The order in which [ORDER BY datetime] and [ORDER BY date] deliver the
    forecast and historical rows. *)
Definition by_datetime (r1 r2 : Forecast.row) : Prop :=
  (Forecast.datetime r1 ≤ Forecast.datetime r2)%Z.

Definition by_date (r1 r2 : Meteostat.row) : Prop :=
  (Meteostat.date r1 ≤ Meteostat.date r2)%Z.

#[global] Instance by_datetime_dec r1 r2 : Decision (by_datetime r1 r2).
Proof. unfold by_datetime. apply _. Defined.

#[global] Instance by_date_dec r1 r2 : Decision (by_date r1 r2).
Proof. unfold by_date. apply _. Defined.

(** A read that leaves its loader without rows: it failed, or the table
    is empty. *)
Definition without_rows {A} (q : read A) : Prop :=
  match q with
  | Rows [] => True
  | Rows (_ :: _) => False
  | Failure _ => True
  end.

(** No database has been populated yet: every query fails. *)
Definition nothing_collected : session :=
  {| current_cities := Failure "no such table: current";
     forecast_cities := Failure "no such table: forecast";
     meteostat_cities := Failure "no such table: meteostat";
     current_table := Failure "no such table: current";
     forecast_table := Failure "no such table: forecast";
     meteostat_table := Failure "no such table: meteostat";
     choice1 := 0; choice2 := 0 |}.

(** Readings without a tie on the latest [created_at] of any city. *)
Definition untied_readings : list Current.row :=
  [ reading "Nairobi" 21 50 10 0 40 7;
    reading "Sydney" 18 60 12 1 30 6;
    reading "Nairobi" 19 55 11 0 42 5;
    reading "Nairobi" 23 45 9 0 38 9 ].

Definition both_forecasts : list Forecast.row :=
  [ hour "Nairobi" 1 21 50 0; hour "Sydney" 1 18 60 2;
    hour "Nairobi" 2 22 48 1; hour "Sydney" 3 17 65 0 ].



(** * Properties *)

(** ** The order on city names *)

Lemma str_le_iff s1 s2 : str_le s1 s2 ↔ s1 = s2 ∨ String_as_OT.lt s1 s2.
Proof.
  unfold str_le, String.leb.
  rewrite <- String_as_OT.cmp_lt, <- String_as_OT.cmp_eq.
  unfold String_as_OT.cmp.
  destruct (String.compare s1 s2); intuition congruence.
Qed.

#[global] Instance str_le_total : Total str_le.
Proof. intros s1 s2. apply String.leb_total. Qed.

#[global] Instance str_le_trans : Transitive str_le.
Proof.
  intros a b c. rewrite !str_le_iff.
  intros [-> | Hab] [-> | Hbc]; auto.
  right. eapply String_as_OT.lt_trans; eauto.
Qed.

#[global] Instance str_le_antisym : AntiSymm (=) str_le.
Proof. intros a b. apply String.leb_antisym. Qed.

Lemma sorted_spec (cities : gset string) :
  StronglySorted str_le (sorted cities) ∧ NoDup (sorted cities) ∧
  ∀ c, c ∈ sorted cities ↔ c ∈ cities.
Proof.
  unfold sorted. split; [|split].
  - apply StronglySorted_merge_sort; apply _.
  - rewrite merge_sort_Permutation. apply NoDup_elements.
  - intros c. rewrite merge_sort_Permutation. apply elem_of_elements.
Qed.

(** ** The script monad *)

Lemma bind_returned {A B} (m : M A) (f : A → M B) t a :
  m = (t, inr a) → m ≫= f = (t ++ trace (f a), outcome (f a)).
Proof. intros ->. unfold mbind, M_bind, trace, outcome. by destruct (f a). Qed.

Lemma bind_raised {A B} (m : M A) (f : A → M B) t e :
  m = (t, inl e) → m ≫= f = (t, inl e).
Proof. by intros ->. Qed.

(** ** City registry *)

Lemma update_cities_spec db q cities :
  ∃ t, update_cities db q cities = (t, inr (cities ∪ contributes q)).
Proof.
  destruct q as [col | e]; simpl.
  - by eexists.
  - eexists. unfold update_cities. cbn. by rewrite (right_id_L ∅ (∪)).
Qed.

Lemma get_available_cities_spec q1 q2 q3 :
  ∃ t, get_available_cities q1 q2 q3 =
       (t, inr (let union := contributes q1 ∪ contributes q2 ∪ contributes q3 in
                if decide (union = ∅) then fallback else sorted union)).
Proof.
  unfold get_available_cities.
  destruct (update_cities_spec DB_CURRENT q1 ∅) as [t1 E1].
  rewrite (left_id_L ∅ (∪)) in E1.
  destruct (update_cities_spec DB_FORECAST q2 (contributes q1)) as [t2 E2].
  destruct (update_cities_spec DB_METEOSTAT q3 (contributes q1 ∪ contributes q2)) as [t3 E3].
  rewrite (bind_returned _ _ _ _ E1), (bind_returned _ _ _ _ E2),
    (bind_returned _ _ _ _ E3).
  by eexists.
Qed.

Example registry_demo :
  get_available_cities (Rows ["Sydney"; "Nairobi"]) (Failure "no such table: forecast")
                       (Rows ["London"; "Sydney"])
  = ([Notice Warning (CitiesNotLoaded DB_FORECAST "no such table: forecast")],
     inr ["London"; "Nairobi"; "Sydney"]).
Proof. vm_compute. reflexivity. Qed.

Lemma fallback_NoDup : NoDup fallback.
Proof. apply (bool_decide_unpack _). by vm_compute. Qed.

Lemma fallback_not_sorted : ¬ Sorted str_le fallback.
Proof. apply (bool_decide_unpack _). by vm_compute. Qed.

(** C4: as stated the claim fails.  When all three sources are empty the
    registry returns the literal fallback, and that list is not in ascending
    order ("Sydney" precedes "New York"). *)
Lemma registry_fallback_not_sorted :
  get_available_cities (Rows []) (Rows []) (Rows []) = ([], inr fallback) ∧
  ¬ Sorted str_le fallback.
Proof. split; [by vm_compute | apply fallback_not_sorted]. Qed.

(** C4 (amended): the registry never raises and its list has no duplicates.
    When the union of what the three sources contribute is non-empty the list
    is that union in ascending order; when it is empty the list is the
    four-item fallback, in the order it is written. *)
Theorem registry_sorted_or_fallback (q1 q2 q3 : read string) :
  ∃ t cities,
    get_available_cities q1 q2 q3 = (t, inr cities) ∧
    NoDup cities ∧
    (contributes q1 ∪ contributes q2 ∪ contributes q3 ≠ ∅ →
       StronglySorted str_le cities ∧
       ∀ c, c ∈ cities ↔ c ∈ contributes q1 ∪ contributes q2 ∪ contributes q3) ∧
    (contributes q1 ∪ contributes q2 ∪ contributes q3 = ∅ → cities = fallback).
Proof.
  destruct (get_available_cities_spec q1 q2 q3) as [t E]. cbn zeta in E.
  eexists _, _. split; [exact E|].
  destruct (sorted_spec (contributes q1 ∪ contributes q2 ∪ contributes q3))
    as (Hs & Hn & Hm).
  case_decide as Hu.
  - split; [apply fallback_NoDup|]. split; [done|done].
  - split; [exact Hn|]. split; [by intros _|done].
Qed.

Lemma registry_NoDup q1 q2 q3 :
  ∃ t cities, get_available_cities q1 q2 q3 = (t, inr cities) ∧ NoDup cities.
Proof.
  destruct (get_available_cities_spec q1 q2 q3) as [t E]. cbn zeta in E.
  eexists _, _. split; [exact E|].
  case_decide; [apply fallback_NoDup | apply sorted_spec].
Qed.

Lemma registry_trace_notices q1 q2 q3 t r :
  get_available_cities q1 q2 q3 = (t, r) → Forall is_notice t.
Proof.
  destruct q1, q2, q3;
    cbv [get_available_cities update_cities mbind M_bind mret M_ret emit app];
    intros [= <- _]; by repeat constructor.
Qed.

Lemma registry_nonempty q1 q2 q3 t cities :
  get_available_cities q1 q2 q3 = (t, inr cities) → cities ≠ [].
Proof.
  destruct (get_available_cities_spec q1 q2 q3) as [t' E]. rewrite E.
  intros [= _ <-]. cbn zeta. case_decide as Hu; [done|].
  intros Hnil. apply Hu. apply set_eq. intros c.
  destruct (sorted_spec (contributes q1 ∪ contributes q2 ∪ contributes q3))
    as (_ & _ & Hm).
  rewrite <- Hm, Hnil. split; intros Hc.
  - by apply elem_of_nil in Hc.
  - by apply not_elem_of_empty in Hc.
Qed.

(** ** Series reductions *)

Lemma length_Q_nonzero {A} (x : A) (xs : list A) :
  ¬ (inject_Z (Z.of_nat (length (x :: xs))) == 0)%Q.
Proof.
  unfold Qeq. simpl Qnum. simpl Qden. rewrite Z.mul_1_r.
  simpl length. lia.
Qed.

Lemma mean_spec (xs : list Q) :
  xs ≠ [] →
  ∃ m, Series.mean xs = Some m ∧
       (m * inject_Z (Z.of_nat (length xs)) == Series.sum xs)%Q.
Proof.
  destruct xs as [|x xs]; [done|]. intros _.
  eexists. split; [reflexivity|].
  unfold Qdiv. rewrite <- Qmult_assoc, (Qmult_comm (/ _)), Qmult_inv_r.
  - apply Qmult_1_r.
  - apply length_Q_nonzero.
Qed.

Lemma max2_ge_l a b : (a <= Series.max2 a b)%Q.
Proof.
  unfold Series.max2. destruct (Qle_bool a b) eqn:E.
  - by apply Qle_bool_iff.
  - apply Qle_refl.
Qed.

Lemma max2_ge_r a b : (b <= Series.max2 a b)%Q.
Proof.
  unfold Series.max2. destruct (Qle_bool a b) eqn:E.
  - apply Qle_refl.
  - apply Qlt_le_weak, Qnot_le_lt. intros H. apply Qle_bool_iff in H. congruence.
Qed.

Lemma min2_le_l a b : (Series.min2 a b <= a)%Q.
Proof.
  unfold Series.min2. destruct (Qle_bool a b) eqn:E.
  - apply Qle_refl.
  - apply Qlt_le_weak, Qnot_le_lt. intros H. apply Qle_bool_iff in H. congruence.
Qed.

Lemma min2_le_r a b : (Series.min2 a b <= b)%Q.
Proof.
  unfold Series.min2. destruct (Qle_bool a b) eqn:E.
  - by apply Qle_bool_iff.
  - apply Qle_refl.
Qed.

Lemma foldl_max2_spec xs x :
  let m := foldl Series.max2 x xs in
  m ∈ x :: xs ∧ ∀ y, y ∈ x :: xs → (y <= m)%Q.
Proof.
  revert x. induction xs as [|a xs IH]; intros x; cbn zeta.
  - split; [by left|]. intros y ->%list_elem_of_singleton. apply Qle_refl.
  - simpl foldl. destruct (IH (Series.max2 x a)) as [Hin Hub]. split.
    + apply elem_of_cons in Hin as [Heq | Hin].
      * rewrite Heq. unfold Series.max2. destruct (Qle_bool x a).
        -- apply elem_of_cons. right. by left.
        -- by left.
      * apply elem_of_cons. right. by right.
    + intros y Hy.
      apply elem_of_cons in Hy as [-> | Hy].
      { eapply Qle_trans; [apply max2_ge_l | apply Hub, elem_of_cons; by left]. }
      apply elem_of_cons in Hy as [-> | Hy].
      { eapply Qle_trans; [apply max2_ge_r | apply Hub, elem_of_cons; by left]. }
      apply Hub, elem_of_cons. by right.
Qed.

Lemma foldl_min2_spec xs x :
  let m := foldl Series.min2 x xs in
  m ∈ x :: xs ∧ ∀ y, y ∈ x :: xs → (m <= y)%Q.
Proof.
  revert x. induction xs as [|a xs IH]; intros x; cbn zeta.
  - split; [by left|]. intros y ->%list_elem_of_singleton. apply Qle_refl.
  - simpl foldl. destruct (IH (Series.min2 x a)) as [Hin Hlb]. split.
    + apply elem_of_cons in Hin as [Heq | Hin].
      * rewrite Heq. unfold Series.min2. destruct (Qle_bool x a).
        -- by left.
        -- apply elem_of_cons. right. by left.
      * apply elem_of_cons. right. by right.
    + intros y Hy.
      apply elem_of_cons in Hy as [-> | Hy].
      { eapply Qle_trans; [apply Hlb, elem_of_cons; by left | apply min2_le_l]. }
      apply elem_of_cons in Hy as [-> | Hy].
      { eapply Qle_trans; [apply Hlb, elem_of_cons; by left | apply min2_le_r]. }
      apply Hlb, elem_of_cons. by right.
Qed.

Lemma max_spec (xs : list Q) :
  xs ≠ [] →
  ∃ m, Series.max xs = Some m ∧ m ∈ xs ∧ ∀ y, y ∈ xs → (y <= m)%Q.
Proof.
  destruct xs as [|x xs]; [done|]. intros _.
  eexists. split; [reflexivity|]. apply foldl_max2_spec.
Qed.

Lemma min_spec (xs : list Q) :
  xs ≠ [] →
  ∃ m, Series.min xs = Some m ∧ m ∈ xs ∧ ∀ y, y ∈ xs → (m <= y)%Q.
Proof.
  destruct xs as [|x xs]; [done|]. intros _.
  eexists. split; [reflexivity|]. apply foldl_min2_spec.
Qed.

(** ** Latest reading per city *)

#[global] Instance by_created_at_trans : Transitive by_created_at.
Proof. unfold by_created_at. intros a b c. lia. Qed.

#[global] Instance by_created_at_total : Total by_created_at.
Proof. unfold by_created_at. intros a b. lia. Qed.

Lemma filter_city_nil (city : string) (df : list Current.row) :
  filter (λ r, Current.city r = city) df = [] ↔ city ∉ Current.city <$> df.
Proof.
  induction df as [|r df IH]; simpl.
  - split; [by intros _ ?%elem_of_nil|done].
  - rewrite filter_cons, not_elem_of_cons. case_decide as E.
    + split; [done|]. intros [Hne _]. by destruct Hne.
    + rewrite IH. split; [|tauto]. intros ?. split; [congruence|done].
Qed.

(** [tail(1)] keeps, of each city, the last of its rows in frame order. *)
Lemma groupby_city_tail1_filter (city : string) (df : list Current.row) :
  filter (λ r, Current.city r = city) (groupby_city_tail1 df) =
  match last (filter (λ r, Current.city r = city) df) with
  | Some r => [r]
  | None => []
  end.
Proof.
  induction df as [|r df IH]; [done|].
  simpl groupby_city_tail1. rewrite (filter_cons _ r df).
  destruct (decide (Current.city r ∈ Current.city <$> df)) as [Hin | Hout].
  - rewrite IH. case_decide as E; [|done].
    rewrite E in Hin.
    destruct (filter (λ r0, Current.city r0 = city) df) as [|r' l] eqn:Ef.
    + by apply filter_city_nil in Ef.
    + by rewrite last_cons_cons.
  - rewrite filter_cons. case_decide as E.
    + rewrite E in Hout. apply filter_city_nil in Hout.
      by rewrite IH, Hout.
    + apply IH.
Qed.

Lemma StronglySorted_filter {A} (R : relation A) (P : A → Prop)
    `{∀ x, Decision (P x)} (l : list A) :
  StronglySorted R l → StronglySorted R (filter P l).
Proof.
  induction 1 as [|x l Hs IH Hall]; [constructor|].
  rewrite filter_cons. case_decide; [|done].
  constructor; [done|].
  apply Forall_forall. intros y [_ Hy]%list_elem_of_filter.
  by eapply Forall_forall in Hall.
Qed.

Lemma StronglySorted_last_max (l : list Current.row) r :
  StronglySorted by_created_at l → last l = Some r →
  ∀ r', r' ∈ l → by_created_at r' r.
Proof.
  intros Hs Hl. apply last_Some in Hl as [l' ->].
  intros r' [Hin | ->%list_elem_of_singleton]%elem_of_app.
  - eapply StronglySorted_app_1_elem_of; [exact Hs|exact Hin|by left].
  - unfold by_created_at. lia.
Qed.

Section LatestReading.

Variable sort_values : list Current.row → list Current.row.
Hypothesis sort_values_perm : ∀ df, sort_values df ≡ₚ df.
Hypothesis sort_values_sorted : ∀ df, Sorted by_created_at (sort_values df).

Lemma sort_values_nil : sort_values [] = [].
Proof. apply Permutation_nil_r, sort_values_perm. Qed.

Lemma filter_sort_values_sorted (city : string) (df : list Current.row) :
  StronglySorted by_created_at (filter (λ r, Current.city r = city) (sort_values df)).
Proof.
  apply StronglySorted_filter, Sorted_StronglySorted; [apply _|].
  apply sort_values_sorted.
Qed.

Lemma latest_of_city (df : list Current.row) (city : string) :
  city ∈ Current.city <$> df →
  ∃ r before,
    filter (λ r, Current.city r = city) (sort_values df) = before ++ [r] ∧
    filter (λ r, Current.city r = city) (groupby_city_tail1 (sort_values df)) = [r] ∧
    r ∈ df ∧ Current.city r = city ∧
    ∀ r', r' ∈ df → Current.city r' = city →
          (Current.created_at r' ≤ Current.created_at r)%Z.
Proof.
  intros Hin.
  rewrite <- (sort_values_perm df) in Hin.
  pose proof (filter_sort_values_sorted city df) as Hs.
  rewrite groupby_city_tail1_filter.
  destruct (last (filter (λ r, Current.city r = city) (sort_values df)))
    as [r|] eqn:El.
  - pose proof El as [before Eb]%last_Some.
    exists r, before. split; [exact Eb|]. split; [done|].
    assert (r ∈ filter (λ r, Current.city r = city) (sort_values df)) as Hr.
    { rewrite Eb. apply elem_of_app. right. by left. }
    apply list_elem_of_filter in Hr as [Hc Hr].
    split; [by rewrite <- (sort_values_perm df)|]. split; [done|].
    intros r' Hr' Hc'.
    apply (StronglySorted_last_max _ r Hs El).
    apply list_elem_of_filter. split; [done|]. by rewrite sort_values_perm.
  - apply last_None in El. apply filter_city_nil in El. done.
Qed.

End LatestReading.

Lemma sort_by_created_at_perm df : sort_by_created_at df ≡ₚ df.
Proof. apply merge_sort_Permutation. Qed.

Lemma sort_by_created_at_sorted df : Sorted by_created_at (sort_by_created_at df).
Proof. apply Sorted_merge_sort. apply _. Qed.

(** C3: for a city with at least one row in the current table, the frame
    returned by [load_current_weather] holds exactly one row of that city;
    it is a row of the table whose [created_at] is maximal for the city, and
    it is the last of the city's rows in the order [sort_values] left them
    in, which is how a tie on the maximal [created_at] is decided. *)
Theorem latest_reading_selection
    (sort_values : list Current.row → list Current.row)
    (sort_values_perm : ∀ df, sort_values df ≡ₚ df)
    (sort_values_sorted : ∀ df, Sorted by_created_at (sort_values df))
    (df : list Current.row) (city : string) :
  city ∈ Current.city <$> df →
  ∃ current_df r before,
    load_current_weather sort_values (Rows df) = ([], inr current_df) ∧
    filter (λ r, Current.city r = city) current_df = [r] ∧
    r ∈ df ∧ Current.city r = city ∧
    (∀ r', r' ∈ df → Current.city r' = city →
           (Current.created_at r' ≤ Current.created_at r)%Z) ∧
    filter (λ r, Current.city r = city) (sort_values df) = before ++ [r].
Proof.
  intros Hin.
  destruct (latest_of_city sort_values sort_values_perm sort_values_sorted df city Hin)
    as (r & before & Hlast & Hone & Hr & Hc & Hmax).
  exists (groupby_city_tail1 (sort_values df)), r, before.
  split; [reflexivity|]. done.
Qed.

Lemma latest_reading_selection_witness :
  "Nairobi" ∈ Current.city <$> tied_readings ∧
  ∃ current_df r before,
    load_current_weather sort_by_created_at (Rows tied_readings) = ([], inr current_df) ∧
    filter (λ r, Current.city r = "Nairobi") current_df = [r] ∧
    r ∈ tied_readings ∧ Current.city r = "Nairobi" ∧
    (∀ r', r' ∈ tied_readings → Current.city r' = "Nairobi" →
           (Current.created_at r' ≤ Current.created_at r)%Z) ∧
    filter (λ r, Current.city r = "Nairobi") (sort_by_created_at tied_readings)
      = before ++ [r].
Proof.
  assert ("Nairobi" ∈ Current.city <$> tied_readings) as Hin.
  { apply (bool_decide_unpack _). vm_compute. reflexivity. }
  split; [exact Hin|].
  exact (latest_reading_selection sort_by_created_at sort_by_created_at_perm
           sort_by_created_at_sorted tied_readings "Nairobi" Hin).
Defined.

Example latest_reading_tie :
  load_current_weather sort_by_created_at (Rows tied_readings)
  = ([], inr [reading "Sydney" 18 60 12 1 30 7; reading "Nairobi" 23 45 9 0 38 7]).
Proof. vm_compute. reflexivity. Qed.

(** ** Tab 1: cards and radar chart *)

Lemma is_empty_true {A} (df : list A) : is_empty df = true ↔ df = [].
Proof. by destruct df. Qed.

Lemma is_empty_false {A} (df : list A) : is_empty df = false ↔ df ≠ [].
Proof. by destruct df. Qed.





Lemma create_comparison_chart_returns city1 city2 current_df r1 rest1 r2 rest2 :
  filter (λ r, Current.city r = city1) current_df = r1 :: rest1 →
  filter (λ r, Current.city r = city2) current_df = r2 :: rest2 →
  create_comparison_chart city1 city2 current_df
  = ([Radar city1 (radar_values r1) city2 (radar_values r2)], inr tt).
Proof. intros E1 E2. unfold create_comparison_chart. by rewrite E1, E2. Qed.


(** C1: the code breaks the claim.  Sydney is known to the registry through
    the forecast source only; the current table has a row for Nairobi and
    none for Sydney.  The card column of Sydney shows a warning, as the claim
    says, but the radar comparison is attempted all the same and its
    [.iloc[0]] raises [IndexError], which leaves [main]. *)
Theorem missing_city_breaks_quick_comparison :
  main sort_by_created_at sample
  = ([ Notice Warning (CitiesNotLoaded DB_METEOSTAT "no such table: meteostat");
       Notice Success (FoundCities 2);
       Notice Error (LoadFailed DB_METEOSTAT "no such table: meteostat");
       WeatherCard "Nairobi" (reading "Nairobi" 20 50 10 2 50 1);
       Notice Warning (NoCurrentDataFor "Sydney") ],
     inl IndexError).
Proof. vm_compute. reflexivity. Qed.

(** ** Radar scaling *)

Lemma Qmult_1_r_eq (x : Q) : (x * 1)%Q = x.
Proof.
  destruct x as [n d]. unfold Qmult. simpl.
  by rewrite Z.mul_1_r, Pos.mul_1_r.
Qed.

(** C2: the radar vector of a reading is its five metrics multiplied
    componentwise by 2, 1, 2, 10, 1 and nothing else: the equation holds for
    every reading, whatever the size or sign of the products.  The sample
    reading of the specification maps to 40, 50, 20, 20, 50, and the chart
    receives these vectors for the first row of each city. *)
Theorem radar_scaling :
  (∀ data : Current.row,
     radar_values data =
     zip_with Qmult
       [Current.temp_c data; Current.humidity data; Current.wind_kph data;
        Current.precip_mm data; Current.aqi data]
       [2; 1; 2; 10; 1]%Q) ∧
  (∀ city datetime wind_dir condition created_at,
     radar_values
       (Current.mk city datetime 20 50 10 wind_dir 2 50 condition created_at)
     = [40; 50; 20; 20; 50]%Q) ∧
  (∀ city datetime wind_dir condition created_at,
     radar_values
       (Current.mk city datetime 60 50 (-3) wind_dir 11 500 condition created_at)
     = [120; 50; -6; 110; 500]%Q) ∧
  (∀ city1 city2 current_df r1 rest1 r2 rest2,
     filter (λ r, Current.city r = city1) current_df = r1 :: rest1 →
     filter (λ r, Current.city r = city2) current_df = r2 :: rest2 →
     create_comparison_chart city1 city2 current_df
     = ([Radar city1 (radar_values r1) city2 (radar_values r2)], inr tt)).
Proof.
  split; [|split; [|split]].
  - intros data. unfold radar_values. simpl zip_with.
    by rewrite !Qmult_1_r_eq.
  - reflexivity.
  - reflexivity.
  - apply create_comparison_chart_returns.
Qed.

(** ** Tab 2: forecast comparison *)

(** C7: the forecast tab plots both cities or neither.  When one of the two
    city-filtered frames is empty the only thing shown is a warning; when
    both have rows, every figure is drawn from the filtered rows themselves,
    one point per row and in frame order (each filtered frame is a sublist
    of the loaded frame holding exactly the rows of its city). *)
Theorem forecast_both_or_nothing
    (city1 city2 : string) (forecast_df : list Forecast.row) :
  let forecast_city1 := filter (λ r, Forecast.city r = city1) forecast_df in
  let forecast_city2 := filter (λ r, Forecast.city r = city2) forecast_df in
  (forecast_city1 = [] ∨ forecast_city2 = [] →
     ∃ m, tab2 city1 city2 forecast_df = ([Notice Warning m], inr tt)) ∧
  (forecast_city1 ≠ [] → forecast_city2 ≠ [] →
     tab2 city1 city2 forecast_df =
     ([ Plot TemperatureForecast
          city1 (Forecast.datetime <$> forecast_city1) (Forecast.temp_c <$> forecast_city1)
          city2 (Forecast.datetime <$> forecast_city2) (Forecast.temp_c <$> forecast_city2);
        Plot PrecipitationForecast
          city1 (Forecast.datetime <$> forecast_city1) (Forecast.precip_mm <$> forecast_city1)
          city2 (Forecast.datetime <$> forecast_city2) (Forecast.precip_mm <$> forecast_city2);
        Plot HumidityForecast
          city1 (Forecast.datetime <$> forecast_city1) (Forecast.humidity <$> forecast_city1)
          city2 (Forecast.datetime <$> forecast_city2) (Forecast.humidity <$> forecast_city2) ],
      inr tt)) ∧
  forecast_city1 `sublist_of` forecast_df ∧
  forecast_city2 `sublist_of` forecast_df ∧
  (∀ r, r ∈ forecast_city1 ↔ Forecast.city r = city1 ∧ r ∈ forecast_df) ∧
  (∀ r, r ∈ forecast_city2 ↔ Forecast.city r = city2 ∧ r ∈ forecast_df).
Proof.
  intros f1 f2. split; [|split; [|split; [|split; [|split]]]].
  - intros Hmiss. unfold tab2.
    destruct forecast_df as [|r0 df]; [by eexists|].
    simpl is_empty. simpl negb. cbv iota. fold f1 f2.
    destruct Hmiss as [-> | ->]; [by eexists|].
    destruct f1; by eexists.
  - intros H1 H2. unfold tab2.
    destruct forecast_df as [|r0 df]; [done|].
    simpl is_empty. simpl negb. cbv iota. fold f1 f2.
    apply is_empty_false in H1, H2. by rewrite H1, H2.
  - apply sublist_filter.
  - apply sublist_filter.
  - intros r. unfold f1. by rewrite list_elem_of_filter.
  - intros r. unfold f2. by rewrite list_elem_of_filter.
Qed.


(** ** Tabs 3 and 4: historical statistics *)

Lemma arithmetic_mean_eq (m : Q) (xs : list Q) (q : Q) :
  arithmetic_mean m xs → xs ≠ [] →
  (Series.sum xs == q * inject_Z (Z.of_nat (length xs)))%Q → (m == q)%Q.
Proof.
  unfold arithmetic_mean. intros Hm Hne Hs. rewrite Hs in Hm.
  destruct xs as [|x xs]; [done|].
  eapply Qmult_inj_r; [|exact Hm]. apply length_Q_nonzero.
Qed.

Lemma fmap_nonempty {A B} (f : A → B) (l : list A) : l ≠ [] → f <$> l ≠ [].
Proof. by destruct l. Qed.

Lemma summary_data_pair city1 city2 historical_df :
  summary_data [city1; city2] historical_df =
  (let city_hist := filter (λ r, Meteostat.city r = city1) historical_df in
   if negb (is_empty city_hist) then [summary_row city1 city_hist] else []) ++
  (let city_hist := filter (λ r, Meteostat.city r = city2) historical_df in
   if negb (is_empty city_hist) then [summary_row city2 city_hist] else []).
Proof.
  simpl.
  destruct (filter (λ r, Meteostat.city r = city1) historical_df);
    destruct (filter (λ r, Meteostat.city r = city2) historical_df); reflexivity.
Qed.

Lemma filter_nonempty_frame {A} (P : A → Prop) `{∀ x, Decision (P x)} (df : list A) :
  filter P df ≠ [] → df ≠ [].
Proof. by destruct df. Qed.

(** C5: when both cities have historical rows, the four metric pairs of
    the Historical Analysis tab and the two rows of the Detailed Metrics
    summary carry, for each city, the arithmetic mean of temperature, the sum
    of precipitation, the arithmetic means of humidity and wind speed, and
    the maximum and minimum of temperature, all taken over the rows of the
    loaded frame whose city is that city; every delta shown is the value of
    city 2 minus the value of city 1. *)
Theorem historical_summary_statistics
    (city1 city2 : string) (historical_df : list Meteostat.row) :
  let hist_city1 := filter (λ r, Meteostat.city r = city1) historical_df in
  let hist_city2 := filter (λ r, Meteostat.city r = city2) historical_df in
  hist_city1 ≠ [] → hist_city2 ≠ [] →
  ∃ temp1 temp2 hum1 hum2 wind1 wind2 hi1 hi2 lo1 lo2 : Q,
    let precip1 := Series.sum (Meteostat.precipitation <$> hist_city1) in
    let precip2 := Series.sum (Meteostat.precipitation <$> hist_city2) in
    tab3 city1 city2 historical_df =
    ([ Metric AvgTemp city1 (Some temp1) None;
       Metric AvgTemp city2 (Some temp2) (Some (Some (temp2 - temp1)%Q));
       Metric TotalPrecip city1 (Some precip1) None;
       Metric TotalPrecip city2 (Some precip2) (Some (Some (precip2 - precip1)%Q));
       Metric AvgHumidity city1 (Some hum1) None;
       Metric AvgHumidity city2 (Some hum2) (Some (Some (hum2 - hum1)%Q));
       Metric AvgWind city1 (Some wind1) None;
       Metric AvgWind city2 (Some wind2) (Some (Some (wind2 - wind1)%Q));
       Plot TemperatureTrend
         city1 (Meteostat.date <$> hist_city1) (Meteostat.temperature <$> hist_city1)
         city2 (Meteostat.date <$> hist_city2) (Meteostat.temperature <$> hist_city2);
       Plot PrecipitationComparison
         city1 (Meteostat.date <$> hist_city1) (Meteostat.precipitation <$> hist_city1)
         city2 (Meteostat.date <$> hist_city2) (Meteostat.precipitation <$> hist_city2) ],
     inr tt) ∧
    summary_data [city1; city2] historical_df =
    [ mkSummary city1 (Some temp1) (Some hi1) (Some lo1) precip1 (Some hum1) (Some wind1);
      mkSummary city2 (Some temp2) (Some hi2) (Some lo2) precip2 (Some hum2) (Some wind2) ] ∧
    arithmetic_mean temp1 (Meteostat.temperature <$> hist_city1) ∧
    arithmetic_mean temp2 (Meteostat.temperature <$> hist_city2) ∧
    arithmetic_mean hum1 (Meteostat.humidity <$> hist_city1) ∧
    arithmetic_mean hum2 (Meteostat.humidity <$> hist_city2) ∧
    arithmetic_mean wind1 (Meteostat.wind_speed <$> hist_city1) ∧
    arithmetic_mean wind2 (Meteostat.wind_speed <$> hist_city2) ∧
    maximum hi1 (Meteostat.temperature <$> hist_city1) ∧
    maximum hi2 (Meteostat.temperature <$> hist_city2) ∧
    minimum lo1 (Meteostat.temperature <$> hist_city1) ∧
    minimum lo2 (Meteostat.temperature <$> hist_city2).
Proof.
  intros h1 h2 H1 H2.
  pose proof (filter_nonempty_frame _ _ H1) as Hdf.
  destruct (mean_spec (Meteostat.temperature <$> h1)) as (t1 & Et1 & Ht1);
    [by apply fmap_nonempty|].
  destruct (mean_spec (Meteostat.temperature <$> h2)) as (t2 & Et2 & Ht2);
    [by apply fmap_nonempty|].
  destruct (mean_spec (Meteostat.humidity <$> h1)) as (u1 & Eu1 & Hu1);
    [by apply fmap_nonempty|].
  destruct (mean_spec (Meteostat.humidity <$> h2)) as (u2 & Eu2 & Hu2);
    [by apply fmap_nonempty|].
  destruct (mean_spec (Meteostat.wind_speed <$> h1)) as (w1 & Ew1 & Hw1);
    [by apply fmap_nonempty|].
  destruct (mean_spec (Meteostat.wind_speed <$> h2)) as (w2 & Ew2 & Hw2);
    [by apply fmap_nonempty|].
  destruct (max_spec (Meteostat.temperature <$> h1)) as (hi1 & Ehi1 & Hhi1);
    [by apply fmap_nonempty|].
  destruct (max_spec (Meteostat.temperature <$> h2)) as (hi2 & Ehi2 & Hhi2);
    [by apply fmap_nonempty|].
  destruct (min_spec (Meteostat.temperature <$> h1)) as (lo1 & Elo1 & Hlo1);
    [by apply fmap_nonempty|].
  destruct (min_spec (Meteostat.temperature <$> h2)) as (lo2 & Elo2 & Hlo2);
    [by apply fmap_nonempty|].
  exists t1, t2, u1, u2, w1, w2, hi1, hi2, lo1, lo2. cbn zeta.
  split; [|split].
  - unfold tab3. fold h1 h2.
    apply is_empty_false in Hdf, H1, H2. rewrite Hdf, H1, H2.
    simpl negb. simpl andb. cbv iota. cbn zeta.
    rewrite Et1, Et2, Eu1, Eu2, Ew1, Ew2. reflexivity.
  - rewrite summary_data_pair. cbn zeta. fold h1 h2.
    apply is_empty_false in H1, H2. rewrite H1, H2. simpl negb. cbv iota.
    unfold summary_row.
    rewrite Et1, Et2, Eu1, Eu2, Ew1, Ew2, Ehi1, Ehi2, Elo1, Elo2. reflexivity.
  - done.
Qed.

(** C6: when one of the selected cities has no historical row, the
    Historical Analysis tab shows a warning and nothing else (no metric, no
    figure), and the Detailed Metrics summary holds a row only for a city
    that has rows, with every statistic of that row an actual number. *)
Theorem historical_unavailable
    (city1 city2 : string) (historical_df : list Meteostat.row) :
  filter (λ r, Meteostat.city r = city1) historical_df = [] ∨
  filter (λ r, Meteostat.city r = city2) historical_df = [] →
  (∃ m, tab3 city1 city2 historical_df = ([Notice Warning m], inr tt) ∧
        (m = InsufficientHistorical ∨ m = NoHistorical)) ∧
  (∀ row, row ∈ summary_data [city1; city2] historical_df →
     filter (λ r, Meteostat.city r = City row) historical_df ≠ [] ∧
     is_Some (Avg_Temperature row) ∧ is_Some (Max_Temperature row) ∧
     is_Some (Min_Temperature row) ∧ is_Some (Avg_Humidity row) ∧
     is_Some (Avg_Wind_Speed row)).
Proof.
  intros Hmiss. split.
  - unfold tab3. destruct historical_df as [|r0 df]; [by eexists; eauto|].
    simpl is_empty. simpl negb. cbv iota. cbn zeta.
    destruct Hmiss as [-> | ->].
    + eexists; eauto.
    + destruct (filter (λ r, Meteostat.city r = city1) (r0 :: df)); eexists; eauto.
  - intros row. rewrite summary_data_pair. cbn zeta.
    intros [Hrow | Hrow]%elem_of_app.
    + destruct (filter (λ r, Meteostat.city r = city1) historical_df)
        as [|r l] eqn:E; [by apply elem_of_nil in Hrow|].
      apply list_elem_of_singleton in Hrow as ->. simpl City. rewrite E.
      split; [done|]. simpl. by repeat split.
    + destruct (filter (λ r, Meteostat.city r = city2) historical_df)
        as [|r l] eqn:E; [by apply elem_of_nil in Hrow|].
      apply list_elem_of_singleton in Hrow as ->. simpl City. rewrite E.
      split; [done|]. simpl. by repeat split.
Qed.

(** C10: in the Detailed Metrics tab each selected city contributes its
    summary row exactly when it has historical rows, whatever the other city
    has, city 1 before city 2; the table is shown when at least one of them
    contributes and nothing is shown otherwise. *)
Theorem summary_rows_per_city
    (city1 city2 : string) (historical_df : list Meteostat.row) :
  let hist_city1 := filter (λ r, Meteostat.city r = city1) historical_df in
  let hist_city2 := filter (λ r, Meteostat.city r = city2) historical_df in
  let rows := summary_data [city1; city2] historical_df in
  rows = (if decide (hist_city1 = []) then [] else [summary_row city1 hist_city1]) ++
         (if decide (hist_city2 = []) then [] else [summary_row city2 hist_city2]) ∧
  (hist_city1 ≠ [] ∨ hist_city2 ≠ [] →
     historical_summary city1 city2 historical_df = ([SummaryTable rows], inr tt)) ∧
  (hist_city1 = [] → hist_city2 = [] →
     historical_summary city1 city2 historical_df = ([], inr tt)).
Proof.
  intros h1 h2 rows.
  assert (rows = (if decide (h1 = []) then [] else [summary_row city1 h1]) ++
                 (if decide (h2 = []) then [] else [summary_row city2 h2])) as Erows.
  { unfold rows. rewrite summary_data_pair. cbn zeta. fold h1 h2.
    destruct h1, h2; reflexivity. }
  split; [exact Erows|]. split.
  - intros Hsome. unfold historical_summary. fold rows.
    assert (historical_df ≠ []) as Hdf.
    { destruct Hsome as [H | H]; by apply filter_nonempty_frame in H. }
    apply is_empty_false in Hdf. rewrite Hdf. simpl negb. cbv iota. cbn zeta.
    assert (rows ≠ []) as Hrows.
    { rewrite Erows. destruct Hsome as [H | H].
      - destruct (decide (h1 = [])); done.
      - destruct (decide (h2 = [])); [done|]. by destruct (decide (h1 = [])). }
    apply is_empty_false in Hrows. by rewrite Hrows.
  - intros E1 E2. unfold historical_summary. fold rows.
    rewrite Erows, E1, E2. simpl. by destruct (negb (is_empty historical_df)).
Qed.

(** ** Data store adapter *)

Lemma load_current_weather_returns sort_values q :
  ∃ t df, load_current_weather sort_values q = (t, inr df) ∧ Forall is_notice t.
Proof.
  destruct q as [rows | e]; eexists _, _; (split; [reflexivity|]).
  - constructor.
  - by repeat constructor.
Qed.

Lemma load_forecast_data_returns q :
  ∃ t df, load_forecast_data q = (t, inr df) ∧ Forall is_notice t.
Proof.
  destruct q as [rows | e]; eexists _, _; (split; [reflexivity|]).
  - constructor.
  - by repeat constructor.
Qed.

Lemma load_meteostat_data_returns q :
  ∃ t df, load_meteostat_data q = (t, inr df) ∧ Forall is_notice t.
Proof.
  destruct q as [rows | e]; eexists _, _; (split; [reflexivity|]).
  - constructor.
  - by repeat constructor.
Qed.

(** C9: none of the three loaders raises.  A failed read is shown as one
    message through [st.error], which does not stop the script, and the
    loader returns a frame without rows; a table without rows gives a frame
    without rows and no message. *)
Theorem adapter_reads_never_raise
    (sort_values : list Current.row → list Current.row)
    (sort_values_perm : ∀ df, sort_values df ≡ₚ df) :
  (∀ q, ∃ t df, load_current_weather sort_values q = (t, inr df)) ∧
  (∀ q, ∃ t df, load_forecast_data q = (t, inr df)) ∧
  (∀ q, ∃ t df, load_meteostat_data q = (t, inr df)) ∧
  (∀ e, load_current_weather sort_values (Failure e)
        = ([Notice Error (LoadFailed DB_CURRENT e)], inr [])) ∧
  (∀ e, load_forecast_data (Failure e)
        = ([Notice Error (LoadFailed DB_FORECAST e)], inr [])) ∧
  (∀ e, load_meteostat_data (Failure e)
        = ([Notice Error (LoadFailed DB_METEOSTAT e)], inr [])) ∧
  load_current_weather sort_values (Rows []) = ([], inr []) ∧
  load_forecast_data (Rows []) = ([], inr []) ∧
  load_meteostat_data (Rows []) = ([], inr []).
Proof.
  repeat split; try reflexivity.
  - intros q. destruct (load_current_weather_returns sort_values q) as (t & df & E & _).
    by eexists _, _.
  - intros q. destruct (load_forecast_data_returns q) as (t & df & E & _).
    by eexists _, _.
  - intros q. destruct (load_meteostat_data_returns q) as (t & df & E & _).
    by eexists _, _.
  - unfold load_current_weather.
    by rewrite (proj1 (Permutation_nil_r _) (sort_values_perm [])).
Qed.

Lemma adapter_reads_never_raise_witness :
  (∀ q, ∃ t df, load_current_weather sort_by_created_at q = (t, inr df)) ∧
  (∀ q, ∃ t df, load_forecast_data q = (t, inr df)) ∧
  (∀ q, ∃ t df, load_meteostat_data q = (t, inr df)) ∧
  (∀ e, load_current_weather sort_by_created_at (Failure e)
        = ([Notice Error (LoadFailed DB_CURRENT e)], inr [])) ∧
  (∀ e, load_forecast_data (Failure e)
        = ([Notice Error (LoadFailed DB_FORECAST e)], inr [])) ∧
  (∀ e, load_meteostat_data (Failure e)
        = ([Notice Error (LoadFailed DB_METEOSTAT e)], inr [])) ∧
  load_current_weather sort_by_created_at (Rows []) = ([], inr []) ∧
  load_forecast_data (Rows []) = ([], inr []) ∧
  load_meteostat_data (Rows []) = ([], inr []).
Proof.
  exact (adapter_reads_never_raise sort_by_created_at sort_by_created_at_perm).
Defined.

(** ** City selection *)

Lemma selectbox_elem (options : list string) (choice : nat) :
  options ≠ [] → selectbox options choice ∈ options.
Proof.
  intros Hne. unfold selectbox.
  destruct (options !! choice) as [c|] eqn:E; simpl.
  - by eapply list_elem_of_lookup_2.
  - destruct options as [|c options]; [done|]. simpl. by left.
Qed.

Lemma candidates_spec (CITIES : list string) (city1 c : string) :
  c ∈ available_cities_for_city2 CITIES city1 ↔ c ∈ CITIES ∧ c ≠ city1.
Proof. unfold available_cities_for_city2. rewrite list_elem_of_filter. tauto. Qed.

Lemma candidates_nonempty (CITIES : list string) (city1 : string) :
  NoDup CITIES → (2 ≤ length CITIES)%nat →
  available_cities_for_city2 CITIES city1 ≠ [].
Proof.
  intros Hnd Hlen.
  destruct CITIES as [|a [|b rest]]; simpl in Hlen; [lia|lia|].
  assert (a ≠ b) as Hab.
  { apply NoDup_cons in Hnd as [Hnotin _]. intros ->. apply Hnotin. by left. }
  destruct (decide (a = city1)) as [Ha | Ha].
  - assert (b ∈ available_cities_for_city2 (a :: b :: rest) city1) as Hin.
    { apply candidates_spec. split; [right; by left | congruence]. }
    intros E. rewrite E in Hin. by apply elem_of_nil in Hin.
  - assert (a ∈ available_cities_for_city2 (a :: b :: rest) city1) as Hin.
    { apply candidates_spec. split; [by left | done]. }
    intros E. rewrite E in Hin. by apply elem_of_nil in Hin.
Qed.

Lemma candidates_single (CITIES : list string) (choice : nat) :
  CITIES ≠ [] → (length CITIES < 2)%nat →
  available_cities_for_city2 CITIES (selectbox CITIES choice) = [].
Proof.
  intros Hne Hlen.
  destruct CITIES as [|a [|b rest]]; simpl in Hlen; [done| |lia].
  unfold available_cities_for_city2.
  assert (selectbox [a] choice = a) as ->.
  { pose proof (selectbox_elem [a] choice Hne) as Hin.
    by apply list_elem_of_singleton in Hin. }
  rewrite filter_cons. by case_decide.
Qed.

Lemma bind_returned_eq {A B} (m : M A) (f : A → M B) t a t' r :
  m = (t, inr a) → f a = (t', r) → m ≫= f = (t ++ t', r).
Proof. intros -> E. unfold mbind, M_bind. by rewrite E. Qed.

(** [main] up to the point where the tabs are drawn. *)
Lemma main_unfold sort_values s t0 CITIES tc current_df tf forecast_df th historical_df :
  get_available_cities (current_cities s) (forecast_cities s) (meteostat_cities s)
    = (t0, inr CITIES) →
  load_current_weather sort_values (current_table s) = (tc, inr current_df) →
  load_forecast_data (forecast_table s) = (tf, inr forecast_df) →
  load_meteostat_data (meteostat_table s) = (th, inr historical_df) →
  let city1 := selectbox CITIES (choice1 s) in
  let candidates := available_cities_for_city2 CITIES city1 in
  let rest : M unit :=
    if is_empty candidates
    then emit (Notice Error NeedTwoCities)
    else
      let city2 := selectbox candidates (choice2 s) in
      tab1 city1 city2 current_df ;;
      tab2 city1 city2 forecast_df ;;
      tab3 city1 city2 historical_df ;;
      tab4 city1 city2 current_df historical_df in
  main sort_values s =
  (t0 ++ [Notice Success (FoundCities (length CITIES))] ++ tc ++ tf ++ th ++ trace rest,
   outcome rest).
Proof.
  intros E0 Ec Ef Eh city1 candidates rest.
  pose proof (registry_nonempty _ _ _ _ _ E0) as Hne.
  apply is_empty_false in Hne.
  unfold main.
  eapply bind_returned_eq; [exact E0|]. rewrite Hne.
  eapply (bind_returned_eq _ _ [_] tt); [reflexivity|].
  eapply bind_returned_eq; [exact Ec|].
  eapply bind_returned_eq; [exact Ef|].
  eapply bind_returned_eq; [exact Eh|].
  fold city1 candidates rest. unfold trace, outcome. by destruct rest.
Qed.

(** C8: whatever the registry returns and whichever first city the user
    points at, the options of the second select box are the registry list
    without the first city.  With two or more cities in the list there is an
    option to pick and the second city is one of them; with fewer, there is
    none, and [main] shows "Need at least 2 cities" after the load messages
    and returns without raising and without drawing a tab. *)
Theorem second_city_candidates
    (sort_values : list Current.row → list Current.row) (s : session) :
  ∃ t CITIES,
    get_available_cities (current_cities s) (forecast_cities s) (meteostat_cities s)
      = (t, inr CITIES) ∧
    let city1 := selectbox CITIES (choice1 s) in
    let candidates := available_cities_for_city2 CITIES city1 in
    city1 ∈ CITIES ∧
    (∀ c, c ∈ candidates ↔ c ∈ CITIES ∧ c ≠ city1) ∧
    ((2 ≤ length CITIES)%nat →
       candidates ≠ [] ∧ selectbox candidates (choice2 s) ∈ candidates) ∧
    ((length CITIES < 2)%nat →
       candidates = [] ∧
       ∃ t', main sort_values s = (t' ++ [Notice Error NeedTwoCities], inr tt) ∧
             Forall is_notice t').
Proof.
  destruct (registry_NoDup (current_cities s) (forecast_cities s)
              (meteostat_cities s)) as (t0 & CITIES & E0 & Hnd).
  pose proof (registry_nonempty _ _ _ _ _ E0) as Hne.
  exists t0, CITIES. split; [exact E0|]. cbn zeta.
  split; [by apply selectbox_elem|].
  split; [intros c; apply candidates_spec|].
  split.
  - intros Hlen.
    pose proof (candidates_nonempty CITIES (selectbox CITIES (choice1 s)) Hnd Hlen).
    split; [done|]. by apply selectbox_elem.
  - intros Hlen.
    pose proof (candidates_single CITIES (choice1 s) Hne Hlen) as Ecand.
    split; [exact Ecand|].
    destruct (load_current_weather_returns sort_values (current_table s))
      as (tc & current_df & Ec & Hc).
    destruct (load_forecast_data_returns (forecast_table s))
      as (tf & forecast_df & Ef & Hf).
    destruct (load_meteostat_data_returns (meteostat_table s))
      as (th & historical_df & Eh & Hh).
    rewrite (main_unfold sort_values s _ _ _ _ _ _ _ _ E0 Ec Ef Eh).
    rewrite Ecand. simpl is_empty. cbv iota. simpl trace. simpl outcome.
    exists (t0 ++ [Notice Success (FoundCities (length CITIES))] ++ tc ++ tf ++ th).
    split.
    + by rewrite <- !app_assoc.
    + rewrite !Forall_app. repeat split; try done.
      * by eapply registry_trace_notices.
      * by repeat constructor.
Qed.

(** ** The scenarios of the specification, run *)

Lemma historical_summary_statistics_witness :
  filter (λ r, Meteostat.city r = "Nairobi") two_city_history ≠ [] ∧
  filter (λ r, Meteostat.city r = "Sydney") two_city_history ≠ [] ∧
  ∃ temp1 temp2 : Q,
    Metric AvgTemp "Nairobi" (Some temp1) None
      ∈ trace (tab3 "Nairobi" "Sydney" two_city_history) ∧
    Metric AvgTemp "Sydney" (Some temp2) (Some (Some (temp2 - temp1)%Q))
      ∈ trace (tab3 "Nairobi" "Sydney" two_city_history) ∧
    (temp1 == 20)%Q ∧ (temp2 == 25)%Q ∧ (temp2 - temp1 == 5)%Q.
Proof.
  assert (filter (λ r, Meteostat.city r = "Nairobi") two_city_history ≠ []) as H1.
  { vm_compute. discriminate. }
  assert (filter (λ r, Meteostat.city r = "Sydney") two_city_history ≠ []) as H2.
  { vm_compute. discriminate. }
  split; [exact H1|]. split; [exact H2|].
  destruct (historical_summary_statistics "Nairobi" "Sydney" two_city_history H1 H2)
    as (temp1 & temp2 & hum1 & hum2 & wind1 & wind2 & hi1 & hi2 & lo1 & lo2
        & Etab & _ & Hm1 & Hm2 & _).
  exists temp1, temp2. rewrite Etab. simpl trace.
  split; [by left|]. split; [right; by left|].
  assert (temp1 == 20)%Q as E1.
  { apply (arithmetic_mean_eq _ _ 20 Hm1); vm_compute; [discriminate|reflexivity]. }
  assert (temp2 == 25)%Q as E2.
  { apply (arithmetic_mean_eq _ _ 25 Hm2); vm_compute; [discriminate|reflexivity]. }
  split; [exact E1|]. split; [exact E2|].
  rewrite E1, E2. reflexivity.
Defined.

Lemma historical_unavailable_witness :
  (filter (λ r, Meteostat.city r = "Nairobi") two_city_history = [] ∨
   filter (λ r, Meteostat.city r = "London") two_city_history = []) ∧
  (∃ m, tab3 "Nairobi" "London" two_city_history = ([Notice Warning m], inr tt) ∧
        (m = InsufficientHistorical ∨ m = NoHistorical)) ∧
  (∀ row, row ∈ summary_data ["Nairobi"; "London"] two_city_history →
     filter (λ r, Meteostat.city r = City row) two_city_history ≠ [] ∧
     is_Some (Avg_Temperature row) ∧ is_Some (Max_Temperature row) ∧
     is_Some (Min_Temperature row) ∧ is_Some (Avg_Humidity row) ∧
     is_Some (Avg_Wind_Speed row)).
Proof.
  assert (filter (λ r, Meteostat.city r = "Nairobi") two_city_history = [] ∨
          filter (λ r, Meteostat.city r = "London") two_city_history = []) as Hmiss.
  { right. vm_compute. reflexivity. }
  split; [exact Hmiss|].
  exact (historical_unavailable "Nairobi" "London" two_city_history Hmiss).
Defined.

Example historical_means_and_delta :
  (∃ rest, tab3 "Nairobi" "Sydney" two_city_history =
     (Metric AvgTemp "Nairobi" (Some (60 # 3)) None ::
      Metric AvgTemp "Sydney" (Some (75 # 3)) (Some (Some ((75 # 3) - (60 # 3))%Q)) ::
      rest, inr tt)) ∧
  Qred (60 # 3) = 20%Q ∧ Qred (75 # 3) = 25%Q ∧ Qred ((75 # 3) - (60 # 3)) = 5%Q.
Proof.
  split; [eexists; vm_compute; reflexivity|].
  repeat split; vm_compute; reflexivity.
Qed.

Example single_city_session :
  main sort_by_created_at nairobi_only
  = ([Notice Success (FoundCities 1); Notice Error NeedTwoCities], inr tt).
Proof. vm_compute. reflexivity. Qed.

(** ** The remaining tabs return *)




(** With two or more cities in the registry list, [main] goes on to draw the
    four tabs for the selected pair over the loaded frames; once tab 1 has
    returned, the other three follow and [main] returns. *)
Lemma main_draws_tabs sort_values s t0 CITIES tc current_df tf forecast_df th historical_df :
  get_available_cities (current_cities s) (forecast_cities s) (meteostat_cities s)
    = (t0, inr CITIES) →
  load_current_weather sort_values (current_table s) = (tc, inr current_df) →
  load_forecast_data (forecast_table s) = (tf, inr forecast_df) →
  load_meteostat_data (meteostat_table s) = (th, inr historical_df) →
  (2 ≤ length CITIES)%nat →
  let city1 := selectbox CITIES (choice1 s) in
  let city2 := selectbox (available_cities_for_city2 CITIES city1) (choice2 s) in
  let tabs : M unit :=
    tab1 city1 city2 current_df ;;
    tab2 city1 city2 forecast_df ;;
    tab3 city1 city2 historical_df ;;
    tab4 city1 city2 current_df historical_df in
  main sort_values s =
  (t0 ++ [Notice Success (FoundCities (length CITIES))] ++ tc ++ tf ++ th ++ trace tabs,
   outcome tabs).
Proof.
  intros E0 Ec Ef Eh Hlen city1 city2 tabs.
  rewrite (main_unfold sort_values s _ _ _ _ _ _ _ _ E0 Ec Ef Eh).
  destruct (registry_NoDup (current_cities s) (forecast_cities s)
              (meteostat_cities s)) as (t0' & CITIES' & E0' & Hnd).
  rewrite E0 in E0'. injection E0' as <- <-.
  pose proof (candidates_nonempty CITIES city1 Hnd Hlen) as Hcand.
  apply is_empty_false in Hcand. fold city1. by rewrite Hcand.
Qed.


(** ** Further runs on sample data *)

Example forecast_tab_one_city_missing :
  tab2 "Nairobi" "Sydney" nairobi_forecast = ([Notice Warning InsufficientForecast], inr tt).
Proof. vm_compute. reflexivity. Qed.

Example forecast_tab_no_rows :
  tab2 "Nairobi" "Sydney" [] = ([Notice Warning NoForecast], inr tt).
Proof. reflexivity. Qed.

Example forecast_tab_both_cities :
  tab2 "Nairobi" "Sydney" (hour "Sydney" 1 18 60 2 :: nairobi_forecast)
  = ([ Plot TemperatureForecast "Nairobi" [1; 2]%Z [21; 22]%Q "Sydney" [1]%Z [18]%Q;
       Plot PrecipitationForecast "Nairobi" [1; 2]%Z [0; 1]%Q "Sydney" [1]%Z [2]%Q;
       Plot HumidityForecast "Nairobi" [1; 2]%Z [50; 48]%Q "Sydney" [1]%Z [60]%Q ],
     inr tt).
Proof. vm_compute. reflexivity. Qed.

Example summary_with_one_city :
  historical_summary "London" "Sydney" two_city_history
  = ([SummaryTable [summary_row "Sydney"
                      [day "Sydney" 1 15 2; day "Sydney" 2 25 0; day "Sydney" 3 35 4]]],
     inr tt).
Proof. vm_compute. reflexivity. Qed.

Example two_cities_run :
  outcome (main sort_by_created_at two_cities) = inr tt ∧
  trace (main sort_by_created_at two_cities) !! 0 = Some (Notice Success (FoundCities 2)) ∧
  WeatherCard "Nairobi" (reading "Nairobi" 23 45 9 0 38 7)
    ∈ trace (main sort_by_created_at two_cities) ∧
  Radar "Nairobi" [46; 45; 18; 0; 38]%Q "Sydney" [36; 60; 24; 10; 30]%Q
    ∈ trace (main sort_by_created_at two_cities) ∧
  Notice Warning InsufficientForecast ∈ trace (main sort_by_created_at two_cities).
Proof.
  repeat split; try (vm_compute; reflexivity);
    apply list_elem_of_In; vm_compute; tauto.
Qed.

(** * Further properties of the script *)

(** ** The frame returned by [load_current_weather] *)

Lemma groupby_city_tail1_sublist (df : list Current.row) :
  groupby_city_tail1 df `sublist_of` df.
Proof.
  induction df as [|r df IH]; [done|]. simpl.
  case_decide; [by apply sublist_cons | by apply sublist_skip].
Qed.

Lemma groupby_city_tail1_cities (df : list Current.row) (city : string) :
  city ∈ Current.city <$> groupby_city_tail1 df ↔ city ∈ Current.city <$> df.
Proof.
  destruct (decide (city ∈ Current.city <$> df)) as [Hin | Hout].
  - split; [done|]. intros _.
    destruct (decide (city ∈ Current.city <$> groupby_city_tail1 df)) as [|Hno]; [done|].
    apply filter_city_nil in Hno. rewrite groupby_city_tail1_filter in Hno.
    destruct (last (filter (λ r, Current.city r = city) df)) eqn:El; [done|].
    apply last_None, filter_city_nil in El. done.
  - split; [|done]. intros Hin. exfalso. apply Hout.
    apply list_elem_of_fmap in Hin as (r & -> & Hr).
    apply list_elem_of_fmap. exists r. split; [done|].
    eapply elem_of_sublist; [exact Hr | apply groupby_city_tail1_sublist].
Qed.

Lemma groupby_city_tail1_NoDup (df : list Current.row) :
  NoDup (Current.city <$> groupby_city_tail1 df).
Proof.
  induction df as [|r df IH]; [constructor|]. simpl.
  case_decide as Hin; [done|].
  rewrite fmap_cons. constructor; [|done].
  by rewrite groupby_city_tail1_cities.
Qed.

Lemma StronglySorted_sublist {A} (R : relation A) (l1 l2 : list A) :
  l1 `sublist_of` l2 → StronglySorted R l2 → StronglySorted R l1.
Proof.
  induction 1 as [|x l1 l2 Hsub IH|x l1 l2 Hsub IH]; intros Hs; [done| |].
  - apply StronglySorted_inv in Hs as [Hs Hall]. constructor; [by apply IH|].
    apply Forall_forall. intros y Hy.
    eapply Forall_forall in Hall; [exact Hall|]. by eapply elem_of_sublist.
  - apply StronglySorted_inv in Hs as [Hs _]. by apply IH.
Qed.

(** X1: the frame [load_current_weather] builds from a table holds one row
    for each city of the table and no other city, every row is a row of the
    table, and the rows are in ascending [created_at] order. *)
Theorem loaded_frame_one_row_per_city
    (sort_values : list Current.row → list Current.row)
    (sort_values_perm : ∀ df, sort_values df ≡ₚ df)
    (sort_values_sorted : ∀ df, Sorted by_created_at (sort_values df))
    (df : list Current.row) :
  ∃ current_df,
    load_current_weather sort_values (Rows df) = ([], inr current_df) ∧
    NoDup (Current.city <$> current_df) ∧
    (∀ city, city ∈ Current.city <$> current_df ↔ city ∈ Current.city <$> df) ∧
    (∀ r, r ∈ current_df → r ∈ df) ∧
    StronglySorted by_created_at current_df.
Proof.
  exists (groupby_city_tail1 (sort_values df)).
  split; [reflexivity|]. split; [apply groupby_city_tail1_NoDup|].
  split; [|split].
  - intros city. rewrite groupby_city_tail1_cities. by rewrite sort_values_perm.
  - intros r Hr. rewrite <- (sort_values_perm df).
    eapply elem_of_sublist; [exact Hr | apply groupby_city_tail1_sublist].
  - eapply StronglySorted_sublist; [apply groupby_city_tail1_sublist|].
    apply Sorted_StronglySorted; [apply _ | apply sort_values_sorted].
Qed.

Lemma loaded_frame_one_row_per_city_witness :
  ∃ current_df,
    load_current_weather sort_by_created_at (Rows tied_readings) = ([], inr current_df) ∧
    NoDup (Current.city <$> current_df) ∧
    (∀ city, city ∈ Current.city <$> current_df ↔ city ∈ Current.city <$> tied_readings) ∧
    (∀ r, r ∈ current_df → r ∈ tied_readings) ∧
    StronglySorted by_created_at current_df.
Proof.
  exact (loaded_frame_one_row_per_city sort_by_created_at sort_by_created_at_perm
           sort_by_created_at_sorted tied_readings).
Defined.

(** X2: when one row of a city was created strictly later than every other
    row of that city, the loaded frame holds exactly that row for the city,
    whatever [sort_values] does with equal keys. *)
Theorem latest_reading_without_tie
    (sort_values : list Current.row → list Current.row)
    (sort_values_perm : ∀ df, sort_values df ≡ₚ df)
    (sort_values_sorted : ∀ df, Sorted by_created_at (sort_values df))
    (df : list Current.row) (r : Current.row) :
  r ∈ df →
  (∀ r', r' ∈ df → Current.city r' = Current.city r →
         r' = r ∨ (Current.created_at r' < Current.created_at r)%Z) →
  ∃ current_df,
    load_current_weather sort_values (Rows df) = ([], inr current_df) ∧
    filter (λ r', Current.city r' = Current.city r) current_df = [r].
Proof.
  intros Hr Hlate.
  assert (Current.city r ∈ Current.city <$> df) as Hin.
  { apply list_elem_of_fmap. by exists r. }
  destruct (latest_of_city sort_values sort_values_perm sort_values_sorted df _ Hin)
    as (r0 & before & _ & Hone & Hr0 & Hc0 & Hmax).
  exists (groupby_city_tail1 (sort_values df)). split; [reflexivity|].
  rewrite Hone. f_equal.
  destruct (Hlate r0 Hr0 Hc0) as [-> | Hlt]; [done|].
  specialize (Hmax r Hr eq_refl). lia.
Qed.

Lemma latest_reading_without_tie_witness :
  reading "Nairobi" 23 45 9 0 38 9 ∈ untied_readings ∧
  ∃ current_df,
    load_current_weather sort_by_created_at (Rows untied_readings) = ([], inr current_df) ∧
    filter (λ r', Current.city r' = "Nairobi") current_df
      = [reading "Nairobi" 23 45 9 0 38 9].
Proof.
  assert (reading "Nairobi" 23 45 9 0 38 9 ∈ untied_readings) as Hr.
  { unfold untied_readings. do 3 right. by left. }
  split; [exact Hr|].
  apply (latest_reading_without_tie sort_by_created_at sort_by_created_at_perm
           sort_by_created_at_sorted untied_readings _ Hr).
  intros r' Hr' Hc.
  unfold untied_readings in Hr'.
  repeat (apply elem_of_cons in Hr' as [-> | Hr']);
    try (right; reflexivity); try (by left); try discriminate Hc.
  by apply elem_of_nil in Hr'.
Defined.

(** ** The current readings as the tabs show them *)







(** ** When [main] raises *)






(** ** What [main] always and never shows *)











(** ** Sessions without data *)

Lemma load_current_weather_without_rows
    (sort_values : list Current.row → list Current.row)
    (sort_values_perm : ∀ df, sort_values df ≡ₚ df) q :
  without_rows q →
  ∃ t, load_current_weather sort_values q = (t, inr []) ∧ Forall is_notice t.
Proof.
  destruct q as [[|r df] | e]; [| done |]; intros _; eexists.
  - split; [|constructor]. unfold load_current_weather.
    by rewrite (proj1 (Permutation_nil_r _) (sort_values_perm [])).
  - split; [reflexivity|]. by repeat constructor.
Qed.

Lemma load_forecast_data_without_rows q :
  without_rows q →
  ∃ t, load_forecast_data q = (t, inr []) ∧ Forall is_notice t.
Proof.
  destruct q as [[|r df] | e]; [| done |]; intros _; eexists.
  - split; [reflexivity|constructor].
  - split; [reflexivity|]. by repeat constructor.
Qed.

Lemma load_meteostat_data_without_rows q :
  without_rows q →
  ∃ t, load_meteostat_data q = (t, inr []) ∧ Forall is_notice t.
Proof.
  destruct q as [[|r df] | e]; [| done |]; intros _; eexists.
  - split; [reflexivity|constructor].
  - split; [reflexivity|]. by repeat constructor.
Qed.

(** X7: when each of the three table reads fails or finds no row and the
    registry lists two or more cities (its fallback has four), [main]
    returns; after the registry and load messages it shows exactly the three
    warnings "No current weather data available", "No forecast data
    available" and "No historical data available", and nothing else. *)
Theorem main_without_data
    (sort_values : list Current.row → list Current.row)
    (sort_values_perm : ∀ df, sort_values df ≡ₚ df)
    (s : session) (t0 : list event) (CITIES : list string) :
  get_available_cities (current_cities s) (forecast_cities s) (meteostat_cities s)
    = (t0, inr CITIES) →
  (2 ≤ length CITIES)%nat →
  without_rows (current_table s) →
  without_rows (forecast_table s) →
  without_rows (meteostat_table s) →
  ∃ t,
    main sort_values s =
    (t ++ [ Notice Warning NoCurrentData; Notice Warning NoForecast;
            Notice Warning NoHistorical ], inr tt) ∧
    Forall is_notice t.
Proof.
  intros E0 Hlen Hc Hf Hh.
  destruct (load_current_weather_without_rows sort_values sort_values_perm _ Hc)
    as (tc & Ec & Hnc).
  destruct (load_forecast_data_without_rows _ Hf) as (tf & Ef & Hnf).
  destruct (load_meteostat_data_without_rows _ Hh) as (th & Eh & Hnh).
  rewrite (main_draws_tabs sort_values s _ _ _ _ _ _ _ _ E0 Ec Ef Eh Hlen).
  cbn zeta. simpl trace. simpl outcome.
  exists (t0 ++ [Notice Success (FoundCities (length CITIES))] ++ tc ++ tf ++ th).
  split.
  - by rewrite <- !app_assoc.
  - rewrite !Forall_app. repeat split; try done.
    + by eapply registry_trace_notices.
    + by repeat constructor.
Qed.

Lemma main_without_data_witness :
  ∃ t,
    main sort_by_created_at nothing_collected =
    (t ++ [ Notice Warning NoCurrentData; Notice Warning NoForecast;
            Notice Warning NoHistorical ], inr tt) ∧
    Forall is_notice t.
Proof.
  apply (main_without_data sort_by_created_at sort_by_created_at_perm nothing_collected
           [ Notice Warning (CitiesNotLoaded DB_CURRENT "no such table: current");
             Notice Warning (CitiesNotLoaded DB_FORECAST "no such table: forecast");
             Notice Warning (CitiesNotLoaded DB_METEOSTAT "no such table: meteostat") ]
           fallback).
  - vm_compute. reflexivity.
  - simpl. lia.
  - exact I.
  - exact I.
  - exact I.
Defined.

(** ** Invariants of the historical summary *)















(** ** The time axes of the figures *)

#[global] Instance by_datetime_trans : Transitive by_datetime.
Proof. unfold by_datetime. intros a b c. lia. Qed.

#[global] Instance by_date_trans : Transitive by_date.
Proof. unfold by_date. intros a b c. lia. Qed.

Lemma forecast_axis_sorted (city : string) (forecast_df : list Forecast.row) :
  Sorted by_datetime forecast_df →
  StronglySorted Z.le
    (Forecast.datetime <$> filter (λ r, Forecast.city r = city) forecast_df).
Proof.
  intros Hs. eapply (StronglySorted_fmap _ by_datetime); [by intros x y|].
  apply StronglySorted_filter, Sorted_StronglySorted; [apply _ | done].
Qed.

Lemma historical_axis_sorted (city : string) (historical_df : list Meteostat.row) :
  Sorted by_date historical_df →
  StronglySorted Z.le
    (Meteostat.date <$> filter (λ r, Meteostat.city r = city) historical_df).
Proof.
  intros Hs. eapply (StronglySorted_fmap _ by_date); [by intros x y|].
  apply StronglySorted_filter, Sorted_StronglySorted; [apply _ | done].
Qed.

(** X10: when the forecast rows arrive ordered by [datetime], as the query
    asks, every figure of the forecast tab has the trace of city 1 first and
    of city 2 second, each with a non-empty time axis in ascending order and
    one value per point of the axis. *)
Theorem forecast_plots_chronological
    (city1 city2 : string) (forecast_df : list Forecast.row)
    (c : chart) (name1 name2 : string) (x1 x2 : list Z) (y1 y2 : list Q) :
  Sorted by_datetime forecast_df →
  Plot c name1 x1 y1 name2 x2 y2 ∈ trace (tab2 city1 city2 forecast_df) →
  name1 = city1 ∧ name2 = city2 ∧
  x1 ≠ [] ∧ x2 ≠ [] ∧
  StronglySorted Z.le x1 ∧ StronglySorted Z.le x2 ∧
  length x1 = length y1 ∧ length x2 = length y2.
Proof.
  intros Hs. unfold tab2, forecast_plot.
  destruct forecast_df as [|r0 df]; simpl is_empty; simpl negb; cbv iota.
  { intros [=]%list_elem_of_singleton. }
  cbn zeta.
  pose proof (forecast_axis_sorted city1 _ Hs) as Hs1.
  pose proof (forecast_axis_sorted city2 _ Hs) as Hs2.
  assert (∀ g : Forecast.row → Q,
            length (Forecast.datetime <$> filter (λ r, Forecast.city r = city1) (r0 :: df))
            = length (g <$> filter (λ r, Forecast.city r = city1) (r0 :: df))) as Hl1.
  { intros g. by rewrite !length_fmap. }
  assert (∀ g : Forecast.row → Q,
            length (Forecast.datetime <$> filter (λ r, Forecast.city r = city2) (r0 :: df))
            = length (g <$> filter (λ r, Forecast.city r = city2) (r0 :: df))) as Hl2.
  { intros g. by rewrite !length_fmap. }
  destruct (filter (λ r, Forecast.city r = city1) (r0 :: df)) as [|a1 f1].
  { intros [=]%list_elem_of_singleton. }
  destruct (filter (λ r, Forecast.city r = city2) (r0 :: df)) as [|a2 f2].
  { intros [=]%list_elem_of_singleton. }
  simpl. intros Hin.
  repeat (apply elem_of_cons in Hin as [[= -> -> -> -> -> -> ->] | Hin];
          [repeat split; first [done | apply Hl1 | apply Hl2]|]).
  by apply elem_of_nil in Hin.
Qed.

Lemma forecast_plots_chronological_witness :
  Sorted by_datetime both_forecasts ∧
  Plot TemperatureForecast "Nairobi" [1; 2]%Z [21; 22]%Q "Sydney" [1; 3]%Z [18; 17]%Q
    ∈ trace (tab2 "Nairobi" "Sydney" both_forecasts) ∧
  StronglySorted Z.le [1; 2]%Z ∧ StronglySorted Z.le [1; 3]%Z.
Proof.
  assert (Sorted by_datetime both_forecasts) as Hs.
  { apply (bool_decide_unpack _). vm_compute. reflexivity. }
  assert (Plot TemperatureForecast "Nairobi" [1; 2]%Z [21; 22]%Q
            "Sydney" [1; 3]%Z [18; 17]%Q
          ∈ trace (tab2 "Nairobi" "Sydney" both_forecasts)) as Hin.
  { vm_compute. left. }
  split; [exact Hs|]. split; [exact Hin|].
  destruct (forecast_plots_chronological "Nairobi" "Sydney" both_forecasts
              _ _ _ _ _ _ _ Hs Hin) as (_ & _ & _ & _ & H1 & H2 & _).
  by split.
Defined.

(** X11: when the historical rows arrive ordered by [date], the two figures
    of the Historical Analysis tab have the trace of city 1 first and of
    city 2 second, each with a non-empty date axis in ascending order and one
    value per date. *)
Theorem historical_plots_chronological
    (city1 city2 : string) (historical_df : list Meteostat.row)
    (c : chart) (name1 name2 : string) (x1 x2 : list Z) (y1 y2 : list Q) :
  Sorted by_date historical_df →
  Plot c name1 x1 y1 name2 x2 y2 ∈ trace (tab3 city1 city2 historical_df) →
  name1 = city1 ∧ name2 = city2 ∧
  x1 ≠ [] ∧ x2 ≠ [] ∧
  StronglySorted Z.le x1 ∧ StronglySorted Z.le x2 ∧
  length x1 = length y1 ∧ length x2 = length y2.
Proof.
  intros Hs. unfold tab3, historical_plot, metric_pair.
  destruct historical_df as [|r0 df]; simpl is_empty; simpl negb; cbv iota.
  { intros [=]%list_elem_of_singleton. }
  cbn zeta.
  pose proof (historical_axis_sorted city1 _ Hs) as Hs1.
  pose proof (historical_axis_sorted city2 _ Hs) as Hs2.
  assert (∀ g : Meteostat.row → Q,
            length (Meteostat.date <$> filter (λ r, Meteostat.city r = city1) (r0 :: df))
            = length (g <$> filter (λ r, Meteostat.city r = city1) (r0 :: df))) as Hl1.
  { intros g. by rewrite !length_fmap. }
  assert (∀ g : Meteostat.row → Q,
            length (Meteostat.date <$> filter (λ r, Meteostat.city r = city2) (r0 :: df))
            = length (g <$> filter (λ r, Meteostat.city r = city2) (r0 :: df))) as Hl2.
  { intros g. by rewrite !length_fmap. }
  destruct (filter (λ r, Meteostat.city r = city1) (r0 :: df)) as [|a1 h1].
  { intros [=]%list_elem_of_singleton. }
  destruct (filter (λ r, Meteostat.city r = city2) (r0 :: df)) as [|a2 h2].
  { intros [=]%list_elem_of_singleton. }
  simpl. intros Hin.
  repeat (apply elem_of_cons in Hin as [Heq | Hin];
          [first [ discriminate Heq
                 | injection Heq as -> -> -> -> -> -> ->;
                   repeat split; first [done | apply Hl1 | apply Hl2] ]|]).
  by apply elem_of_nil in Hin.
Qed.

Lemma historical_plots_chronological_witness :
  Sorted by_date two_city_history ∧
  Plot TemperatureTrend "Nairobi" [1; 2; 3]%Z [10; 20; 30]%Q
                        "Sydney" [1; 2; 3]%Z [15; 25; 35]%Q
    ∈ trace (tab3 "Nairobi" "Sydney" two_city_history) ∧
  StronglySorted Z.le [1; 2; 3]%Z.
Proof.
  assert (Sorted by_date two_city_history) as Hs.
  { apply (bool_decide_unpack _). vm_compute. reflexivity. }
  assert (Plot TemperatureTrend "Nairobi" [1; 2; 3]%Z [10; 20; 30]%Q
                                "Sydney" [1; 2; 3]%Z [15; 25; 35]%Q
          ∈ trace (tab3 "Nairobi" "Sydney" two_city_history)) as Hin.
  { vm_compute. do 8 right. left. }
  split; [exact Hs|]. split; [exact Hin|].
  destruct (historical_plots_chronological "Nairobi" "Sydney" two_city_history
              _ _ _ _ _ _ _ Hs Hin) as (_ & _ & _ & _ & H1 & _).
  exact H1.
Defined.

(** ** The two select boxes *)

Lemma filter_ne_length (l : list string) (c : string) :
  NoDup l → c ∈ l → S (length (filter (λ x, x ≠ c) l)) = length l.
Proof.
  induction l as [|a l IH]; intros Hnd Hin; [by apply elem_of_nil in Hin|].
  apply NoDup_cons in Hnd as [Ha Hnd]. rewrite filter_cons.
  destruct (decide (a ≠ c)) as [Hne | Heq].
  - simpl. f_equal. apply IH; [done|].
    apply elem_of_cons in Hin as [-> | Hin]; done.
  - apply dec_stable in Heq. subst a. simpl. f_equal.
    clear IH Hin Hnd. induction l as [|b l IH]; [done|].
    apply not_elem_of_cons in Ha as [Hcb Ha].
    rewrite filter_cons. destruct (decide (b ≠ c)) as [|Hn]; [simpl; f_equal; by apply IH|].
    by apply dec_stable in Hn.
Qed.

(** X12: the menu of the second select box is the registry list with the
    first city struck out: the same cities in the same order, without
    duplicates, and exactly one entry shorter. *)
Theorem second_menu_one_shorter
    (s : session) :
  ∃ t CITIES,
    get_available_cities (current_cities s) (forecast_cities s) (meteostat_cities s)
      = (t, inr CITIES) ∧
    let candidates := available_cities_for_city2 CITIES (selectbox CITIES (choice1 s)) in
    candidates `sublist_of` CITIES ∧
    NoDup candidates ∧
    S (length candidates) = length CITIES.
Proof.
  destruct (registry_NoDup (current_cities s) (forecast_cities s) (meteostat_cities s))
    as (t0 & CITIES & E0 & Hnd).
  pose proof (registry_nonempty _ _ _ _ _ E0) as Hne.
  exists t0, CITIES. split; [exact E0|]. cbn zeta.
  unfold available_cities_for_city2. split; [apply sublist_filter|].
  split; [by apply NoDup_filter|].
  apply filter_ne_length; [done | by apply selectbox_elem].
Qed.

(** X13: until the user touches the select boxes (both at index 0) and the
    registry lists two or more cities, the dashboard compares the first city
    of the list with the second. *)
Theorem default_selection
    (s : session) (t : list event) (CITIES : list string) :
  get_available_cities (current_cities s) (forecast_cities s) (meteostat_cities s)
    = (t, inr CITIES) →
  choice1 s = 0%nat → choice2 s = 0%nat → (2 ≤ length CITIES)%nat →
  let city1 := selectbox CITIES (choice1 s) in
  let city2 := selectbox (available_cities_for_city2 CITIES city1) (choice2 s) in
  CITIES !! 0%nat = Some city1 ∧ CITIES !! 1%nat = Some city2.
Proof.
  intros E0 -> -> Hlen.
  destruct (registry_NoDup (current_cities s) (forecast_cities s) (meteostat_cities s))
    as (t0 & CITIES' & E0' & Hnd).
  rewrite E0 in E0'. injection E0' as <- <-.
  destruct CITIES as [|a [|b rest]]; simpl in Hlen; [lia|lia|].
  assert (a ≠ b) as Hab.
  { apply NoDup_cons in Hnd as [Hnotin _]. intros ->. apply Hnotin. by left. }
  cbn zeta.
  assert (selectbox (a :: b :: rest) 0 = a) as -> by reflexivity.
  split; [done|].
  unfold available_cities_for_city2.
  rewrite filter_cons. destruct (decide (a ≠ a)) as [|_]; [done|].
  rewrite filter_cons. destruct (decide (b ≠ a)) as [_|Hn]; [done|].
  apply dec_stable in Hn. congruence.
Qed.

Lemma default_selection_witness :
  let CITIES := ["Nairobi"; "Sydney"] in
  let city1 := selectbox CITIES (choice1 two_cities) in
  let city2 := selectbox (available_cities_for_city2 CITIES city1) (choice2 two_cities) in
  CITIES !! 0%nat = Some city1 ∧ CITIES !! 1%nat = Some city2.
Proof.
  apply (default_selection two_cities [] ["Nairobi"; "Sydney"]).
  - vm_compute. reflexivity.
  - reflexivity.
  - reflexivity.
  - simpl. lia.
Defined.

(** ** The registry, message by message *)

